(** * pyshipstation: the object-to-wire mapping layer

    A shallow embedding of [shipstation/models.py], [shipstation/api.py]
    and [shipstation/aio.py], and the properties of the specification
    settled against it.

    Python values are embedded as the inductive [value]; a raising call is
    an [outcome] carrying the class of the exception.  Strings are ASCII
    strings, dictionaries are association lists in insertion order with
    string keys, and binary floating point is left out of the universe of
    values (integers, booleans and finite decimals are the numbers). *)

From Stdlib Require Import List String Ascii ZArith Bool Lia Arith.
From Stdlib Require Import Numbers.DecimalString.
Import ListNotations.

Set Warnings "-register-all".

Local Open Scope list_scope.
Local Open Scope string_scope.

(* ===================================================================== *)
(** * Characters and the [str] methods the code calls                     *)
(* ===================================================================== *)

Module Str.

Definition is_upper (c : ascii) : bool :=
  let n := nat_of_ascii c in (65 <=? n)%nat && (n <=? 90)%nat.

Definition is_lower (c : ascii) : bool :=
  let n := nat_of_ascii c in (97 <=? n)%nat && (n <=? 122)%nat.

Definition is_digit (c : ascii) : bool :=
  let n := nat_of_ascii c in (48 <=? n)%nat && (n <=? 57)%nat.

Definition is_cased (c : ascii) : bool := is_upper c || is_lower c.

Definition lower_char (c : ascii) : ascii :=
  if is_upper c then ascii_of_nat (nat_of_ascii c + 32) else c.

Definition upper_char (c : ascii) : ascii :=
  if is_lower c then ascii_of_nat (nat_of_ascii c - 32) else c.

(** [str.lower()] *)
Fixpoint lower (s : string) : string :=
  match s with
  | EmptyString => EmptyString
  | String c r => String (lower_char c) (lower r)
  end.

(** [str.title()]: a cased character is upper-cased when the character
    before it is not cased, lower-cased otherwise. *)
Fixpoint title_from (prev_cased : bool) (s : string) : string :=
  match s with
  | EmptyString => EmptyString
  | String c r =>
      String (if prev_cased then lower_char c else upper_char c)
             (title_from (is_cased c) r)
  end.

Definition title (s : string) : string := title_from false s.

(** [str.split(sep)] for a one-character separator: never the empty list. *)
Fixpoint split (sep : ascii) (s : string) : list string :=
  match s with
  | EmptyString => [EmptyString]
  | String c r =>
      if Ascii.eqb c sep then EmptyString :: split sep r
      else match split sep r with
           | tok :: toks => String c tok :: toks
           | [] => [String c EmptyString]
           end
  end.

(** ["".join(xs)] *)
Definition join0 (xs : list string) : string := String.concat "" xs.

(** [sep.join(xs)] *)
Definition join (sep : string) (xs : list string) : string :=
  String.concat sep xs.

(** Every character of [s] satisfies [p]. *)
Fixpoint all (p : ascii -> bool) (s : string) : bool :=
  match s with
  | EmptyString => true
  | String c r => p c && all p r
  end.

End Str.

(* ===================================================================== *)
(** * Naming converter ([ShipStationBase.to_camel_case], [to_snake_case]) *)
(* ===================================================================== *)

(** [tokens = name.lower().split("_"); first_word = tokens.pop(0);
     return first_word + "".join(x.title() for x in tokens)] *)
Definition to_camel_case (name : string) : string :=
  match Str.split "_" (Str.lower name) with
  | first_word :: tokens => first_word ++ Str.join0 (map Str.title tokens)
  | [] => EmptyString (* [split] never returns the empty list *)
  end.

(** [snake_case_regex.sub(r"\1_\2", name)] with
    [snake_case_regex = re.compile("([a-z0-9])([A-Z])")]: matches are found
    left to right and do not overlap, so the scan resumes after the upper
    case character of a match. *)
Fixpoint snake_case_regex_sub (s : string) : string :=
  match s with
  | EmptyString => EmptyString
  | String c1 t =>
      match t with
      | EmptyString => s
      | String c2 r =>
          if (Str.is_lower c1 || Str.is_digit c1) && Str.is_upper c2
          then String c1 (String "_" (String c2 (snake_case_regex_sub r)))
          else String c1 (snake_case_regex_sub t)
      end
  end.

Definition to_snake_case (name : string) : string :=
  Str.lower (snake_case_regex_sub name).

(* ===================================================================== *)
(** * Exceptions and outcomes                                             *)
(* ===================================================================== *)

(** The classes of the exceptions the code can raise.  Every validation
    helper of the repository raises [AttributeError]; the others come from
    the interpreter and the libraries ([InvalidOperation] is
    [decimal.InvalidOperation], [TransportError] whatever the HTTP library
    raises, [RecursionError] the interpreter's recursion limit). *)
Inductive exn : Type :=
| AttributeError | TypeError | NameError | ValueError | KeyError
| InvalidOperation | RecursionError | TransportError.

Inductive outcome (A : Type) : Type :=
| Ok (a : A)
| Raise (e : exn).
Arguments Ok {A} a.
Arguments Raise {A} e.

Definition bind {A B : Type} (m : outcome A) (k : A -> outcome B) : outcome B :=
  match m with
  | Ok a => k a
  | Raise e => Raise e
  end.

Notation "x <- m ;; k" := (bind m (fun x => k))
  (at level 61, m at next level, right associativity).
Notation "m ;;; k" := (bind m (fun _ => k))
  (at level 61, right associativity).

Definition raises {A : Type} (m : outcome A) : Prop :=
  exists e, m = Raise e.

Definition is_ok {A : Type} (m : outcome A) : bool :=
  match m with Ok _ => true | Raise _ => false end.

(** A list comprehension whose element expression can raise: elements are
    evaluated left to right and the first exception ends the evaluation. *)
Fixpoint comprehension {A B : Type} (f : A -> outcome B) (l : list A)
  : outcome (list B) :=
  match l with
  | [] => Ok []
  | a :: r => b <- f a ;; bs <- comprehension f r ;; Ok (b :: bs)
  end.

(* ===================================================================== *)
(** * Python values                                                       *)
(* ===================================================================== *)

(** The entity classes of [models.py]. *)
Inductive cls : Type :=
| ShipStationAddress | ShipStationAdvancedOptions | ShipStationCarrier
| ShipStationCarrierPackage | ShipStationCarrierService
| ShipStationContainer | ShipStationCustomsItem | ShipStationCustomer
| ShipStationInsuranceOptions | ShipStationInternationalOptions
| ShipStationItem | ShipStationMarketplace | ShipStationMarketplaceUsername
| ShipStationOrder | ShipStationStatusMapping | ShipStationStore
| ShipStationUser | ShipStationWarehouse | ShipStationWebhook
| ShipStationWeight.

Definition cls_eqb (a b : cls) : bool :=
  match a, b with
  | ShipStationAddress, ShipStationAddress
  | ShipStationAdvancedOptions, ShipStationAdvancedOptions
  | ShipStationCarrier, ShipStationCarrier
  | ShipStationCarrierPackage, ShipStationCarrierPackage
  | ShipStationCarrierService, ShipStationCarrierService
  | ShipStationContainer, ShipStationContainer
  | ShipStationCustomsItem, ShipStationCustomsItem
  | ShipStationCustomer, ShipStationCustomer
  | ShipStationInsuranceOptions, ShipStationInsuranceOptions
  | ShipStationInternationalOptions, ShipStationInternationalOptions
  | ShipStationItem, ShipStationItem
  | ShipStationMarketplace, ShipStationMarketplace
  | ShipStationMarketplaceUsername, ShipStationMarketplaceUsername
  | ShipStationOrder, ShipStationOrder
  | ShipStationStatusMapping, ShipStationStatusMapping
  | ShipStationStore, ShipStationStore
  | ShipStationUser, ShipStationUser
  | ShipStationWarehouse, ShipStationWarehouse
  | ShipStationWebhook, ShipStationWebhook
  | ShipStationWeight, ShipStationWeight => true
  | _, _ => false
  end.

(** A finite [decimal.Decimal]: the number [dec_coeff * 10 ^ dec_exp].
    NaN, the infinities and the sign of zero are not represented. *)
Record decimal : Type := Dec { dec_coeff : Z; dec_exp : Z }.

(** Python values.  An instance of an entity class keeps the attributes
    stored in the slots its class declares apart from those of its
    [__dict__] (no class of the hierarchy is slots-only, [ShipStationBase]
    declares none, so every instance has both).  A [requests.Response] is
    its status code and its decoded body, when the body is JSON. *)
Inductive value : Type :=
| VNone
| VBool (b : bool)
| VInt (z : Z)
| VDecimal (d : decimal)
| VStr (s : string)
| VList (l : list value)
| VDict (d : list (string * value))
| VObj (c : cls) (slots : list (string * value)) (dict : list (string * value))
| VClass (c : cls)
| VResponse (status : Z) (body : option value).

Definition attrs : Type := list (string * value).

(** ** Dictionaries in insertion order *)

Fixpoint alist_get {V : Type} (k : string) (d : list (string * V)) : option V :=
  match d with
  | [] => None
  | (k', v) :: r => if String.eqb k k' then Some v else alist_get k r
  end.

(** [d[k] = v]: an existing key keeps its place, a new one goes last. *)
Fixpoint alist_set {V : Type} (k : string) (v : V) (d : list (string * V))
  : list (string * V) :=
  match d with
  | [] => [(k, v)]
  | (k', v') :: r =>
      if String.eqb k k' then (k, v) :: r else (k', v') :: alist_set k v r
  end.

Definition alist_keys {V : Type} (d : list (string * V)) : list string :=
  map fst d.

(** [{f(key): value for key, value in items}] *)
Definition dict_comprehension {V : Type} (f : string -> string)
  (items : list (string * V)) : list (string * V) :=
  fold_left (fun d kv => alist_set (f (fst kv)) (snd kv) d) items [].

Definition str_in (s : string) (l : list string) : bool :=
  existsb (String.eqb s) l.

(** ** Truth value, [isinstance], [len], [str] *)

Definition truthy (v : value) : bool :=
  match v with
  | VNone => false
  | VBool b => b
  | VInt z => negb (Z.eqb z 0)
  | VDecimal d => negb (Z.eqb (dec_coeff d) 0)
  | VStr s => negb (String.eqb s "")
  | VList l => match l with [] => false | _ => true end
  | VDict d => match d with [] => false | _ => true end
  | VObj _ _ _ => true
  | VClass _ => true
  | VResponse status _ => negb ((400 <=? status)%Z && (status <? 600)%Z)
  end.

(** The types the code names in [isinstance] and [require_type]. *)
Inductive pytype : Type :=
| TBool | TInt | TDecimal | TStr | TList | TDict | TType | TResponse
| TDatetime
| TEntity (c : cls).

(** [issubclass]: [ShipStationCarrierService] derives
    [ShipStationCarrierPackage]; the other entity classes derive only
    [ShipStationBase]. *)
Definition issubclass (c parent : cls) : bool :=
  cls_eqb c parent ||
  match c, parent with
  | ShipStationCarrierService, ShipStationCarrierPackage => true
  | _, _ => false
  end.

Definition isinstance (v : value) (t : pytype) : bool :=
  match t, v with
  | TBool, VBool _ => true
  | TInt, VInt _ => true
  | TInt, VBool _ => true (* [bool] is a subclass of [int] *)
  | TDecimal, VDecimal _ => true
  | TStr, VStr _ => true
  | TList, VList _ => true
  | TDict, VDict _ => true
  | TType, VClass _ => true
  | TResponse, VResponse _ _ => true
  | TEntity parent, VObj c _ _ => issubclass c parent
  | _, _ => false
  end.

Definition len (v : value) : outcome Z :=
  match v with
  | VStr s => Ok (Z.of_nat (String.length s))
  | VList l => Ok (Z.of_nat (List.length l))
  | VDict d => Ok (Z.of_nat (List.length d))
  | _ => Raise TypeError
  end.

Definition str_of_int (z : Z) : string :=
  NilZero.string_of_int (Z.to_int z).

Definition repeat_string (s : string) (n : nat) : string :=
  Str.join0 (repeat s n).

(** Number of decimal digits of the coefficient. *)
Definition dec_digits (c : Z) : nat :=
  String.length (NilZero.string_of_uint (N.to_uint (Z.abs_N c))).

(* ===================================================================== *)
(** * Numbers: [int], [bool] and [decimal.Decimal]                        *)
(* ===================================================================== *)

(** [c / 10^k] rounded to the nearest integer, ties to even
    ([ROUND_HALF_EVEN], the rounding of the default decimal context). *)
Definition round_half_even_div (c : Z) (k : Z) : Z :=
  let p := (10 ^ k)%Z in
  let a := Z.abs c in
  let q := (a / p)%Z in
  let r := (a mod p)%Z in
  let q' := if (2 * r <? p)%Z then q
            else if (p <? 2 * r)%Z then (q + 1)%Z
            else if Z.even q then q else (q + 1)%Z in
  (Z.sgn c * q')%Z.

(** Precision of the default decimal context. *)
Definition dec_prec : nat := 28.

(** The rounding every arithmetic result goes through: at most [dec_prec]
    significant digits are kept (the exponent limits of the context are
    not modelled). *)
Definition dec_fix (d : decimal) : decimal :=
  let n := dec_digits (dec_coeff d) in
  if (n <=? dec_prec)%nat then d
  else
    let k := Z.of_nat (n - dec_prec) in
    let c := round_half_even_div (dec_coeff d) k in
    if (dec_digits c <=? dec_prec)%nat then Dec c (dec_exp d + k)
    else Dec (Z.quot c 10) (dec_exp d + k + 1).

Definition dec_of_int (z : Z) : decimal := Dec z 0.

Definition dec_mul (a b : decimal) : decimal :=
  dec_fix (Dec (dec_coeff a * dec_coeff b) (dec_exp a + dec_exp b)).

Definition dec_add (a b : decimal) : decimal :=
  let e := Z.min (dec_exp a) (dec_exp b) in
  dec_fix (Dec (dec_coeff a * 10 ^ (dec_exp a - e)
                + dec_coeff b * 10 ^ (dec_exp b - e)) e).

(** [Decimal.__round__(2)], that is [self.quantize(Decimal("1E-2"))]. *)
Definition dec_round2 (d : decimal) : outcome decimal :=
  let c := dec_coeff d in
  let e := dec_exp d in
  if (c =? 0)%Z then Ok (Dec 0 (-2))
  else if (Z.of_nat dec_prec <? e + Z.of_nat (dec_digits c) - 1 + 2 + 1)%Z
  then Raise InvalidOperation
  else
    let c' := if (-2 <=? e)%Z then (c * 10 ^ (e + 2))%Z
              else round_half_even_div c (-2 - e) in
    if (dec_digits c' <=? dec_prec)%nat then Ok (Dec c' (-2))
    else Raise InvalidOperation.

(** The integer behind an [int] or a [bool]. *)
Definition as_int (v : value) : option Z :=
  match v with
  | VInt z => Some z
  | VBool b => Some (if b then 1 else 0)%Z
  | _ => None
  end.

(** [a * b] *)
Definition py_mul (a b : value) : outcome value :=
  match as_int a, as_int b with
  | Some x, Some y => Ok (VInt (x * y))
  | Some x, None =>
      match b with
      | VDecimal d => Ok (VDecimal (dec_mul (dec_of_int x) d))
      | VStr s => Ok (VStr (repeat_string s (Z.to_nat x)))
      | VList l => Ok (VList (List.concat (repeat l (Z.to_nat x))))
      | _ => Raise TypeError
      end
  | None, Some y =>
      match a with
      | VDecimal d => Ok (VDecimal (dec_mul d (dec_of_int y)))
      | VStr s => Ok (VStr (repeat_string s (Z.to_nat y)))
      | VList l => Ok (VList (List.concat (repeat l (Z.to_nat y))))
      | _ => Raise TypeError
      end
  | None, None =>
      match a, b with
      | VDecimal x, VDecimal y => Ok (VDecimal (dec_mul x y))
      | _, _ => Raise TypeError
      end
  end.

(** [a + b] *)
Definition py_add (a b : value) : outcome value :=
  match as_int a, as_int b with
  | Some x, Some y => Ok (VInt (x + y))
  | Some x, None =>
      match b with
      | VDecimal d => Ok (VDecimal (dec_add (dec_of_int x) d))
      | _ => Raise TypeError
      end
  | None, Some y =>
      match a with
      | VDecimal d => Ok (VDecimal (dec_add d (dec_of_int y)))
      | _ => Raise TypeError
      end
  | None, None =>
      match a, b with
      | VDecimal x, VDecimal y => Ok (VDecimal (dec_add x y))
      | VStr x, VStr y => Ok (VStr (x ++ y))
      | VList x, VList y => Ok (VList (x ++ y))
      | _, _ => Raise TypeError
      end
  end.

(** [sum(xs)]: the additions start from the integer 0. *)
Definition py_sum (xs : list value) : outcome value :=
  fold_left (fun acc x => a <- acc ;; py_add a x) xs (Ok (VInt 0)).

(** [round(v, 2)] *)
Definition py_round2 (v : value) : outcome value :=
  match v with
  | VInt z => Ok (VInt z)
  | VBool b => Ok (VInt (if b then 1 else 0))
  | VDecimal d => d' <- dec_round2 d ;; Ok (VDecimal d')
  | _ => Raise TypeError
  end.

(** The elements a [for] loop or a comprehension goes through. *)
Definition iterate (v : value) : outcome (list value) :=
  match v with
  | VList l => Ok l
  | VDict d => Ok (map (fun kv => VStr (fst kv)) d)
  | VStr s => Ok (map (fun c => VStr (String c EmptyString)) (list_ascii_of_string s))
  | _ => Raise TypeError
  end.

(* ===================================================================== *)
(** * Attributes of entity instances                                      *)
(* ===================================================================== *)

(** The [__slots__] a class declares (or inherits); [None] when the class
    declares none. *)
Definition slots_of (c : cls) : option (list string) :=
  match c with
  | ShipStationWeight => Some ["units"; "value"; "WeightUnits"]
  | ShipStationAddress =>
      Some ["name"; "company"; "street1"; "street2"; "street3"; "city";
            "state"; "postal_code"; "country"; "phone"; "residential"]
  | ShipStationOrder =>
      Some ["advanced_options"; "amount_paid"; "batch_number"; "bill_to";
            "carrier_code"; "confirmation"; "create_date"; "customer_email";
            "customer_notes"; "customer_username"; "dimensions"; "form_data";
            "gift"; "insurance_cost"; "insurance_options"; "internal_notes";
            "international_options"; "is_return_label"; "items"; "label_data";
            "marketplace_notified"; "notify_error_message"; "order_date";
            "order_id"; "order_key"; "order_number"; "order_status";
            "package_code"; "payment_date"; "payment_method"; "service_code";
            "ship_date"; "ship_to"; "shipment_cost"; "shipment_id";
            "shipment_items"; "shipping_amount"; "tax_amount";
            "tracking_number"; "user_id"; "void_date"; "voided";
            "warehouse_id"; "weight"]
  | ShipStationStore =>
      Some ["store_id"; "store_name"; "marketplace_id"; "marketplace_name";
            "account_name"; "email"; "integration_url"; "active";
            "company_name"; "phone"; "public_email"; "website";
            "refresh_date"; "last_refresh_attempt"; "create_date";
            "modify_date"; "auto_refresh"; "status_mappings"]
  | ShipStationWarehouse =>
      Some ["create_date"; "ext_inventory_identity"; "is_default";
            "origin_address"; "return_address"; "register_fedex_meter";
            "seller_integration_id"; "warehouse_id"; "warehouse_name"]
  | ShipStationWebhook =>
      Some ["active"; "is_label_apihook"; "web_hook_id"; "seller_id";
            "hook_type"; "message_format"; "url"; "name";
            "bulk_copy_batch_id"; "bulk_copy_record_id"; "webhook_logs";
            "seller"; "store"; "store_id"]
  | ShipStationUser => Some ["name"; "user_id"; "user_name"]
  | ShipStationMarketplace =>
      Some ["can_confirm_shipments"; "can_refresh"; "marketplace_id"; "name";
            "supports_custom_mappings"; "supports_custom_statuses"]
  | ShipStationCustomer =>
      Some ["address_verified"; "city"; "company"; "country_code";
            "create_date"; "customer_id"; "email"; "marketplace_usernames";
            "modify_date"; "name"; "phone"; "postal_code"; "state";
            "street1"; "street2"; "tags"]
  | ShipStationMarketplaceUsername =>
      Some ["create_date"; "customer_id"; "customer_user_id"; "marketplace";
            "marketplace_id"; "modify_date"; "username"]
  | ShipStationCarrier =>
      Some ["account_number"; "balance"; "code"; "name"; "nickname";
            "primary"; "requires_funded_account"; "shipping_provider_id"]
  | ShipStationCarrierPackage | ShipStationCarrierService =>
      Some ["carrier_code"; "code"; "domestic"; "international"; "name"]
  | ShipStationCustomsItem | ShipStationInternationalOptions
  | ShipStationContainer | ShipStationItem | ShipStationAdvancedOptions
  | ShipStationInsuranceOptions | ShipStationStatusMapping => None
  end.

Definition is_slot (c : cls) (name : string) : bool :=
  match slots_of c with
  | Some names => str_in name names
  | None => false
  end.

(** [getattr(v, name)] for a data attribute: a slot that was never
    assigned and a name absent from [__dict__] raise alike. *)
Definition getattr (v : value) (name : string) : outcome value :=
  match v with
  | VObj c slots dict =>
      match alist_get name (if is_slot c name then slots else dict) with
      | Some x => Ok x
      | None => Raise AttributeError
      end
  | _ => Raise AttributeError
  end.

(** [setattr(self, name, x)] on an entity instance. *)
Definition setattr (self : value) (name : string) (x : value) : value :=
  match self with
  | VObj c slots dict =>
      if is_slot c name then VObj c (alist_set name x slots) dict
      else VObj c slots (alist_set name x dict)
  | _ => self
  end.

(** The instance before [__init__] runs. *)
Definition blank (c : cls) : value := VObj c [] [].

(* ===================================================================== *)
(** * Methods that mutate [self]                                          *)
(* ===================================================================== *)

(** A method call takes the receiver to the receiver after the call and
    either a result or an exception; what was assigned before an exception
    stays assigned. *)
Definition action (A : Type) : Type := value -> value * outcome A.

Definition ret {A : Type} (a : A) : action A := fun self => (self, Ok a).

Definition throw {A : Type} (e : exn) : action A := fun self => (self, Raise e).

Definition lift {A : Type} (m : outcome A) : action A := fun self => (self, m).

Definition abind {A B : Type} (m : action A) (k : A -> action B) : action B :=
  fun self =>
    match m self with
    | (self', Ok a) => k a self'
    | (self', Raise e) => (self', Raise e)
    end.

Notation "x <~ m ;; k" := (abind m (fun x => k))
  (at level 61, m at next level, right associativity).
Notation "m >> k" := (abind m (fun _ => k))
  (at level 61, right associativity).

(** [self.name = x] *)
Definition assign (name : string) (x : value) : action unit :=
  fun self => (setattr self name x, Ok tt).

(** [self.name] *)
Definition read (name : string) : action value :=
  fun self => (self, getattr self name).

(** The receiver after the call, when the call returned. *)
Definition returned {A : Type} (r : value * outcome A) : outcome value :=
  match r with
  | (self, Ok _) => Ok self
  | (_, Raise e) => Raise e
  end.

(* ===================================================================== *)
(** * Validation helpers of [ShipStationBase]                             *)
(* ===================================================================== *)

(** [if not getattr(self, attribute): raise AttributeError(...)] *)
Definition require_attribute (self : value) (attribute : string) : outcome unit :=
  v <- getattr self attribute ;;
  if truthy v then Ok tt else Raise AttributeError.

(** [if item is None: return]; [if not isinstance(item, required_type):
    raise AttributeError(...)] *)
Definition require_type (item : value) (required_type : pytype) : outcome unit :=
  match item with
  | VNone => Ok tt
  | _ => if isinstance item required_type then Ok tt else Raise AttributeError
  end.

(** [value in other] for [other] one of the tuples of strings of
    [constants.py]: only an equal string is a member. *)
Definition value_in (v : value) (other : list string) : bool :=
  match v with
  | VStr s => str_in s other
  | _ => false
  end.

(** [if value not in other: raise AttributeError(...)] *)
Definition require_membership (v : value) (other : list string) : outcome unit :=
  if value_in v other then Ok tt else Raise AttributeError.

(** [self.require_type(parameters, dict)];
    [return {self.to_camel_case(key): value
             for key, value in parameters.items()}].
    The argument [valid_parameters] is not read. *)
Definition _validate_parameters (parameters : value)
  (valid_parameters : list string) : outcome value :=
  require_type parameters TDict ;;;
  match parameters with
  | VDict d => Ok (VDict (dict_comprehension to_camel_case d))
  | _ => Raise AttributeError (* [None] has no [items] *)
  end.

(* ===================================================================== *)
(** * Entity constructors and setters                                     *)
(* ===================================================================== *)

Section Entities.

(** [constants.py] is not part of the sources at hand; its tuples are
    parameters of the development, as is the clock read by
    [ShipStationOrder.__init__]. *)
Variable CONTENTS_VALUES : list string.
Variable NON_DELIVERY_OPTIONS : list string.
Variable WEIGHT_UNIT_OPTIONS : list string.
Variable ORDER_STATUS_VALUES : list string.
(** [datetime.datetime.now().isoformat()] *)
Variable now : string.

(** Where [__init__] takes the value of an assignment from. *)
Inductive init_src : Type :=
| Arg (default : value)   (* the parameter of the same name *)
| Lit (v : value).        (* a constant of the body *)

Definition args (names : list string) : list (string * init_src) :=
  map (fun n => (n, Arg VNone)) names.

(** The assignments of [__init__], in the order of the body. *)
Definition init_assignments (c : cls) : list (string * init_src) :=
  match c with
  | ShipStationCustomsItem =>
      [("description", Arg VNone); ("quantity", Arg (VInt 1));
       ("value", Arg (VDecimal (Dec 0 0)));
       ("harmonized_tariff_code", Arg VNone);
       ("country_of_origin", Arg VNone)]
  | ShipStationInternationalOptions => [("customs_items", Lit (VList []))]
  | ShipStationWeight =>
      [("units", Arg VNone); ("value", Arg VNone); ("WeightUnits", Lit VNone)]
  | ShipStationContainer =>
      args ["units"; "length"; "width"; "height"] ++ [("weight", Lit VNone)]
  | ShipStationItem =>
      args ["key"; "sku"; "name"; "image_url"] ++ [("weight", Lit VNone)] ++
      args ["quantity"; "unit_price"; "warehouse_location"; "options"]
  | ShipStationAddress =>
      args ["name"; "company"; "street1"; "street2"; "street3"; "city";
            "state"; "postal_code"; "country"; "phone"; "residential"]
  | ShipStationOrder =>
      [("order_number", Arg VNone); ("order_date", Lit (VStr now));
       ("order_status", Lit VNone); ("bill_to", Lit VNone);
       ("ship_to", Lit VNone); ("order_key", Arg VNone);
       ("payment_date", Lit VNone); ("customer_username", Lit VNone);
       ("customer_email", Lit VNone); ("items", Lit (VList []));
       ("amount_paid", Lit (VDecimal (Dec 0 0)));
       ("tax_amount", Lit (VDecimal (Dec 0 0)));
       ("shipping_amount", Lit (VDecimal (Dec 0 0)));
       ("customer_notes", Lit VNone); ("internal_notes", Lit VNone);
       ("gift", Lit VNone); ("payment_method", Lit VNone);
       ("carrier_code", Lit VNone); ("service_code", Lit VNone);
       ("package_code", Lit VNone); ("confirmation", Lit VNone);
       ("ship_date", Lit VNone); ("dimensions", Lit VNone);
       ("insurance_options", Lit VNone);
       ("international_options", Lit VNone);
       ("advanced_options", Lit VNone); ("tracking_number", Lit VNone);
       ("voided", Lit VNone); ("void_date", Lit VNone);
       ("order_id", Lit VNone); ("marketplace_notified", Lit VNone);
       ("warehouse_id", Lit VNone); ("user_id", Lit VNone);
       ("label_data", Lit VNone); ("batch_number", Lit VNone);
       ("insurance_cost", Lit VNone); ("form_data", Lit VNone);
       ("notify_error_message", Lit VNone); ("is_return_label", Lit VNone);
       ("shipment_id", Lit VNone); ("shipment_cost", Lit VNone);
       ("weight", Lit VNone); ("create_date", Lit VNone);
       ("shipment_items", Lit VNone)]
  | ShipStationAdvancedOptions =>
      args ["warehouse_id"; "non_machineable"; "saturday_delivery";
            "contains_alcohol"; "store_id"; "custom_field_1";
            "custom_field_2"; "custom_field_3"; "source"; "merged_or_split";
            "merged_ids"; "bill_to_party"; "bill_to_account";
            "bill_to_postal_code"; "bill_to_country_code";
            "bill_to_my_other_account"]
  | ShipStationInsuranceOptions =>
      args ["provider"; "insure_shipment"; "insured_value"]
  | ShipStationStatusMapping => args ["order_status"; "status_key"]
  | ShipStationStore =>
      args ["store_id"; "store_name"; "marketplace_id"; "marketplace_name";
            "account_name"; "email"; "integration_url"; "active";
            "company_name"; "phone"; "public_email"; "website";
            "refresh_date"; "last_refresh_attempt"; "create_date";
            "modify_date"; "auto_refresh"; "status_mappings"]
  | ShipStationWarehouse =>
      args ["create_date"; "ext_inventory_identity"; "is_default";
            "origin_address"; "return_address"; "register_fedex_meter";
            "seller_integration_id"; "warehouse_id"; "warehouse_name"]
  | ShipStationWebhook =>
      args ["active"; "is_label_apihook"; "web_hook_id"; "seller_id";
            "hook_type"; "message_format"; "url"; "name";
            "bulk_copy_batch_id"; "bulk_copy_record_id"; "webhook_logs";
            "seller"; "store_id"]
  | ShipStationUser => args ["name"; "user_id"; "user_name"]
  | ShipStationMarketplace =>
      args ["can_confirm_shipments"; "can_refresh"; "marketplace_id"; "name";
            "supports_custom_mappings"; "supports_custom_statuses"]
  | ShipStationCustomer =>
      args ["address_verified"; "city"; "company"; "country_code";
            "create_date"; "customer_id"; "email"; "marketplace_usernames";
            "modify_date"; "name"; "phone"; "postal_code"; "state";
            "street1"; "street2"; "tags"]
  | ShipStationMarketplaceUsername =>
      args ["create_date"; "customer_id"; "customer_user_id"; "marketplace";
            "marketplace_id"; "modify_date"; "username"]
  | ShipStationCarrier =>
      args ["account_number"; "balance"; "code"; "name"; "nickname";
            "primary"; "requires_funded_account"; "shipping_provider_id"]
  | ShipStationCarrierPackage | ShipStationCarrierService =>
      args ["carrier_code"; "code"; "domestic"; "international"; "name"]
  end.

(** Parameters of [__init__] that the body does not assign as they are. *)
Definition init_other_params (c : cls) : list (string * value) :=
  match c with
  | ShipStationWebhook => [("store", VNone)]
  | ShipStationInternationalOptions =>
      [("contents", VNone); ("non_delivery", VStr "return_to_sender")]
  | _ => []
  end.

Definition init_params (c : cls) : list string :=
  flat_map (fun a => match snd a with Arg _ => [fst a] | Lit _ => [] end)
           (init_assignments c)
  ++ map fst (init_other_params c).

(** The value a parameter has in the body. *)
Definition kwarg (kwargs : attrs) (name : string) (default : value) : value :=
  match alist_get name kwargs with
  | Some v => v
  | None => default
  end.

Fixpoint run_assignments (kwargs : attrs) (l : list (string * init_src))
  : action unit :=
  match l with
  | [] => ret tt
  | (name, Arg default) :: r =>
      assign name (kwarg kwargs name default) >> run_assignments kwargs r
  | (name, Lit v) :: r => assign name v >> run_assignments kwargs r
  end.

(** [ShipStationInternationalOptions.set_contents] *)
Definition set_contents (contents : value) : action unit :=
  if truthy contents then
    if negb (value_in contents CONTENTS_VALUES) then throw AttributeError
    else assign "contents" contents
  else assign "contents" VNone.

(** [ShipStationInternationalOptions.set_non_delivery] *)
Definition set_non_delivery (non_delivery : value) : action unit :=
  if truthy non_delivery then
    if negb (value_in non_delivery NON_DELIVERY_OPTIONS) then throw AttributeError
    else assign "non_delivery" non_delivery
  else assign "non_delivery" VNone.

(** The checks that end [ShipStationCustomsItem.__init__]. *)
Definition customs_item_checks (value_arg : value) : action unit :=
  fun self =>
    (self,
     require_attribute self "description" ;;;
     require_attribute self "harmonized_tariff_code" ;;;
     require_attribute self "country_of_origin" ;;;
     require_attribute self "description" ;;;
     require_type value_arg TDecimal ;;;
     country_of_origin <- getattr self "country_of_origin" ;;
     n <- len country_of_origin ;;
     if negb (n =? 2)%Z then Raise AttributeError else Ok tt).

(** [__init__] of class [c] with the keyword arguments [kwargs]. *)
Definition init (c : cls) (kwargs : attrs) : action unit :=
  run_assignments kwargs (init_assignments c) >>
  match c with
  | ShipStationCustomsItem =>
      customs_item_checks (kwarg kwargs "value" (VDecimal (Dec 0 0)))
  | ShipStationInternationalOptions =>
      set_contents (kwarg kwargs "contents" VNone) >>
      set_non_delivery (kwarg kwargs "non_delivery" (VStr "return_to_sender"))
  | _ => ret tt
  end.

(** The call of the class [c] with the keyword arguments [kwargs]. *)
Definition new (c : cls) (kwargs : attrs) : outcome value :=
  if forallb (fun k => str_in k (init_params c)) (alist_keys kwargs)
  then returned (init c kwargs (blank c))
  else Raise TypeError.

(** [ShipStationCustomsItem(description, quantity, value,
     harmonized_tariff_code, country_of_origin)] *)
Definition new_customs_item
  (description quantity value_ harmonized_tariff_code country_of_origin : value)
  : outcome value :=
  new ShipStationCustomsItem
      [("description", description); ("quantity", quantity);
       ("value", value_);
       ("harmonized_tariff_code", harmonized_tariff_code);
       ("country_of_origin", country_of_origin)].

(** [ShipStationWeight.set_units] *)
Definition weight_set_units : action unit :=
  units <~ read "units" ;;
  lift (require_membership units WEIGHT_UNIT_OPTIONS) >>
  assign "WeightUnits" units.

(** [ShipStationContainer.set_weight], [ShipStationItem.set_weight] *)
Definition set_weight (weight : value) : action unit :=
  lift (require_type weight (TEntity ShipStationWeight)) >>
  assign "weight" weight.

(** [ShipStationContainer.set_units] *)
Definition container_set_units (units : value) : action unit :=
  lift (require_membership units WEIGHT_UNIT_OPTIONS) >>
  assign "units" units.

(** [ShipStationInternationalOptions.add_customs_item] *)
Definition add_customs_item (customs_item : value) : action unit :=
  lift (require_type customs_item (TEntity ShipStationCustomsItem)) >>
  items <~ read "customs_items" ;;
  match items with
  | VList l => assign "customs_items" (VList (l ++ [customs_item]))
  | _ => throw AttributeError
  end.

(** [ShipStationOrder.set_status] *)
Definition set_status (status : value) : action unit :=
  if negb (truthy status) then assign "order_status" VNone
  else if negb (value_in status ORDER_STATUS_VALUES) then throw AttributeError
  else assign "order_status" status.

(** [ShipStationOrder.set_shipping_address] *)
Definition set_shipping_address (shipping_address : value) : action unit :=
  lift (require_type shipping_address (TEntity ShipStationAddress)) >>
  assign "ship_to" shipping_address.

(** [ShipStationOrder.set_billing_address] *)
Definition set_billing_address (billing_address : value) : action unit :=
  lift (require_type billing_address (TEntity ShipStationAddress)) >>
  assign "bill_to" billing_address.

(** [ShipStationOrder.set_dimensions] *)
Definition set_dimensions (dimensions : value) : action unit :=
  lift (require_type dimensions (TEntity ShipStationContainer)) >>
  assign "dimensions" dimensions.

(** [ShipStationOrder.set_international_options] *)
Definition set_international_options (options : value) : action unit :=
  lift (require_type options (TEntity ShipStationInternationalOptions)) >>
  assign "international_options" options.

(** [ShipStationOrder.add_item]: [self.items.append(item)] *)
Definition add_item (item : value) : action unit :=
  items <~ read "items" ;;
  match items with
  | VList l => assign "items" (VList (l ++ [item]))
  | _ => throw AttributeError
  end.

(** [ShipStationOrder.get_weight] *)
Definition get_weight (self : value) : outcome value :=
  items <- getattr self "items" ;;
  items <- iterate items ;;
  products <- comprehension
    (fun item =>
       w <- getattr item "weight" ;;
       v <- getattr w "value" ;;
       q <- getattr item "quantity" ;;
       py_mul v q) items ;;
  weight <- py_sum products ;;
  dimensions <- getattr self "dimensions" ;;
  weight <-
    (if truthy dimensions then
       dw <- getattr dimensions "weight" ;;
       if truthy dw then
         dwv <- getattr dw "value" ;;
         py_add weight dwv
       else Ok weight
     else Ok weight) ;;
  rounded <- py_round2 weight ;;
  Ok (VDict [("units", VStr "ounces"); ("value", rounded)]).

End Entities.

(* ===================================================================== *)
(** * [str] of numbers and [json.dumps]                                   *)
(* ===================================================================== *)

(** [str(d)] for a [Decimal], the scientific string of the decimal
    specification. *)
Definition dec_str (d : decimal) : string :=
  let digits := NilZero.string_of_uint (N.to_uint (Z.abs_N (dec_coeff d))) in
  let n := Z.of_nat (String.length digits) in
  let leftdigits := (dec_exp d + n)%Z in
  let dotplace :=
    if (dec_exp d <=? 0)%Z && (-6 <? leftdigits)%Z then leftdigits else 1%Z in
  let intpart : string :=
    if (dotplace <=? 0)%Z then "0"
    else if (n <=? dotplace)%Z
         then digits ++ repeat_string "0" (Z.to_nat (dotplace - n))
         else String.substring 0 (Z.to_nat dotplace) digits in
  let fracpart : string :=
    if (dotplace <=? 0)%Z
    then "." ++ repeat_string "0" (Z.to_nat (- dotplace)) ++ digits
    else if (n <=? dotplace)%Z then ""
         else "." ++ String.substring (Z.to_nat dotplace)
                                      (Z.to_nat (n - dotplace)) digits in
  let e := (leftdigits - dotplace)%Z in
  let exp : string :=
    if (e =? 0)%Z then ""
    else "E" ++ (if (0 <=? e)%Z then "+" else "") ++ str_of_int e in
  (if (dec_coeff d <? 0)%Z then "-" else "") ++ intpart ++ fracpart ++ exp.

(** [str(v)] for the numbers [json] converts. *)
Definition num_str (v : value) : string :=
  match v with
  | VInt z => str_of_int z
  | VBool b => if b then "True" else "False"
  | VDecimal d => dec_str d
  | _ => ""
  end.

Definition dquote : string := String (ascii_of_nat 34) EmptyString.

Definition hex_digit (n : nat) : string :=
  String.substring n 1 "0123456789abcdef".

(** The escapes of [json.dumps] (with [ensure_ascii], the default). *)
Definition json_escape_char (c : ascii) : string :=
  let n := nat_of_ascii c in
  if (n =? 34)%nat then "\" ++ dquote
  else if (n =? 92)%nat then "\\"
  else if (n =? 8)%nat then "\b"
  else if (n =? 12)%nat then "\f"
  else if (n =? 10)%nat then "\n"
  else if (n =? 13)%nat then "\r"
  else if (n =? 9)%nat then "\t"
  else if (32 <=? n)%nat && (n <=? 126)%nat then String c EmptyString
  else "\u00" ++ hex_digit (n / 16) ++ hex_digit (n mod 16).

Definition json_string (s : string) : string :=
  dquote ++ Str.join0 (map json_escape_char (list_ascii_of_string s)) ++ dquote.

(** [json.dumps(v)]: a [Decimal], an entity instance, a class and a
    response are not serializable. *)
Fixpoint json_dumps (v : value) : outcome string :=
  match v with
  | VNone => Ok "null"
  | VBool b => Ok (if b then "true" else "false")
  | VInt z => Ok (str_of_int z)
  | VStr s => Ok (json_string s)
  | VList l =>
      parts <- (fix elements (l : list value) : outcome (list string) :=
                  match l with
                  | [] => Ok []
                  | x :: r =>
                      p <- json_dumps x ;; ps <- elements r ;; Ok (p :: ps)
                  end) l ;;
      Ok ("[" ++ Str.join ", " parts ++ "]")
  | VDict d =>
      parts <- (fix members (d : list (string * value)) : outcome (list string) :=
                  match d with
                  | [] => Ok []
                  | (k, x) :: r =>
                      p <- json_dumps x ;; ps <- members r ;;
                      Ok ((json_string k ++ ": " ++ p)%string :: ps)
                  end) d ;;
      Ok ("{" ++ Str.join ", " parts ++ "}")
  | VDecimal _ | VObj _ _ _ | VClass _ | VResponse _ _ => Raise TypeError
  end.

(* ===================================================================== *)
(** * To wire format: [as_dict] and [json]                                *)
(* ===================================================================== *)

(** [d[key] = x] *)
Definition setitem (d : value) (key : string) (x : value) : outcome value :=
  match d with
  | VDict items => Ok (VDict (alist_set key x items))
  | _ => Raise TypeError
  end.

(** [d[key]] *)
Definition getitem (d : value) (key : string) : outcome value :=
  match d with
  | VDict items =>
      match alist_get key items with
      | Some x => Ok x
      | None => Raise KeyError
      end
  | _ => Raise TypeError
  end.

(** [ShipStationBase.as_dict]: the attributes of [__dict__] when there
    are some, those of [__slots__] otherwise. *)
Definition base_as_dict (self : value) : outcome value :=
  match self with
  | VObj c slots dict =>
      match dict with
      | _ :: _ => Ok (VDict (dict_comprehension to_camel_case dict))
      | [] =>
          match slots_of c with
          | None => Raise AttributeError
          | Some [] => Ok VNone
          | Some names =>
              items <- comprehension
                         (fun key => x <- getattr self key ;; Ok (key, x))
                         names ;;
              Ok (VDict (dict_comprehension to_camel_case items))
          end
      end
  | _ => Raise AttributeError
  end.

(** Nesting depth of a value: the recursion of [as_dict] follows the
    attributes of the receiver and never goes deeper. *)
Fixpoint depth (v : value) : nat :=
  match v with
  | VList l => S (list_max (map depth l))
  | VDict d => S (list_max (map (fun kv => depth (snd kv)) d))
  | VObj _ slots dict =>
      S (Nat.max (list_max (map (fun kv => depth (snd kv)) slots))
                 (list_max (map (fun kv => depth (snd kv)) dict)))
  | VResponse _ (Some b) => S (depth b)
  | _ => 0%nat
  end.

(** [self.as_dict()] with dynamic dispatch on the class of [self]; [fuel]
    bounds the depth of the calls. *)
Fixpoint as_dict_upto (fuel : nat) (self : value) : outcome value :=
  match fuel with
  | O => Raise RecursionError
  | S fuel =>
      (* [[x.as_dict() for x in items]] *)
      let items_as_dicts (items : value) : outcome value :=
        xs <- iterate items ;;
        ds <- comprehension (as_dict_upto fuel) xs ;;
        Ok (VList ds) in
      (* [x.as_dict() if x else None] *)
      let as_dict_or_none (x : value) : outcome value :=
        if truthy x then as_dict_upto fuel x else Ok VNone in
      match self with
      | VObj ShipStationInternationalOptions _ _ =>
          d <- base_as_dict self ;;
          customs_items <- getattr self "customs_items" ;;
          ds <- items_as_dicts customs_items ;;
          setitem d "customsItems" ds
      | VObj ShipStationWeight _ _ =>
          v <- getattr self "value" ;;
          u <- getattr self "WeightUnits" ;;
          Ok (VDict [("value", v); ("units", u)])
      | VObj ShipStationContainer _ _ | VObj ShipStationItem _ _ =>
          d <- base_as_dict self ;;
          weight <- getattr self "weight" ;;
          (* the name [__setattr__] is not bound *)
          if truthy weight then Raise NameError else Ok d
      | VObj ShipStationOrder _ _ =>
          d <- base_as_dict self ;;
          items <- getattr self "items" ;;
          x <- items_as_dicts items ;;
          d <- setitem d "items" x ;;
          dimensions <- getattr self "dimensions" ;;
          x <- as_dict_or_none dimensions ;;
          d <- setitem d "dimensions" x ;;
          bill_to <- getattr self "bill_to" ;;
          x <- as_dict_or_none bill_to ;;
          d <- setitem d "billTo" x ;;
          ship_to <- getattr self "ship_to" ;;
          x <- as_dict_or_none ship_to ;;
          d <- setitem d "shipTo" x ;;
          x <- get_weight self ;;
          d <- setitem d "weight" x ;;
          international_options <- getattr self "international_options" ;;
          x <- as_dict_or_none international_options ;;
          setitem d "internationalOptions" x
      | VObj ShipStationWarehouse _ _ =>
          d <- base_as_dict self ;;
          origin_address <- getattr self "origin_address" ;;
          d <- (if truthy origin_address
                then x <- as_dict_upto fuel origin_address ;;
                     setitem d "originAddress" x
                else Ok d) ;;
          return_address <- getattr self "return_address" ;;
          if truthy return_address
          then x <- as_dict_upto fuel return_address ;;
               setitem d "returnAddress" x
          else Ok d
      | VObj ShipStationCustomer _ dict =>
          d <- base_as_dict self ;;
          marketplace_usernames <- getattr self "marketplace_usernames" ;;
          if truthy marketplace_usernames then
            xs <- iterate marketplace_usernames ;;
            target <- getitem d "marketplaceUsernames" ;;
            match target with
            | VList t =>
                ds <- comprehension (as_dict_upto fuel) xs ;;
                match dict with
                | [] =>
                    (* [d] was built from the slots: the list appended to
                       is the list iterated, and the loop goes on into the
                       dictionaries it has appended, which have no
                       [as_dict] *)
                    Raise AttributeError
                | _ :: _ => setitem d "marketplaceUsernames" (VList (t ++ ds))
                end
            | _ => Raise AttributeError
            end
          else Ok d
      | VObj _ _ _ => base_as_dict self
      | VClass _ => Raise TypeError
      | _ => Raise AttributeError
      end
  end.

Definition as_dict (self : value) : outcome value :=
  as_dict_upto (S (depth self)) self.

(** The call does not end on the recursion limit of the embedding. *)
Definition safe {A : Type} (m : outcome A) : Prop := m <> Raise RecursionError.

(** The conversion [ShipStationBase.json] applies to a value of the
    dictionary. *)
Definition json_coerce (x : value) : outcome value :=
  if isinstance x TBool then Ok (VStr (if truthy x then "true" else "false"))
  else if isinstance x TInt || isinstance x TDecimal then Ok (VStr (num_str x))
  else if isinstance x TType
       then Raise AttributeError (* [value.__class__] is [type]: no [split] *)
       else Ok x.

(** The dictionary [ShipStationBase.json] hands to [json.dumps]. *)
Definition base_json_dict (self : value) : outcome value :=
  j <- as_dict self ;;
  match j with
  | VDict items =>
      items' <- comprehension
                  (fun kv => x <- json_coerce (snd kv) ;; Ok (fst kv, x))
                  items ;;
      Ok (VDict items')
  | _ => Raise AttributeError
  end.

(** [self.json()]: [ShipStationOrder] overrides it with
    [json.dumps(self.as_dict())]. *)
Definition json (self : value) : outcome string :=
  match self with
  | VObj ShipStationOrder _ _ => d <- as_dict self ;; json_dumps d
  | VObj _ _ _ => j <- base_json_dict self ;; json_dumps j
  | VClass _ => Raise TypeError
  | _ => Raise AttributeError
  end.

(* ===================================================================== *)
(** * From wire format: [from_json] and [object_list]                     *)
(* ===================================================================== *)

(** [r.json()] on a [requests.Response]: the decoded body, or the
    [ValueError] of a body that is not JSON. *)
Definition response_json (r : value) : outcome value :=
  match r with
  | VResponse _ (Some body) => Ok body
  | VResponse _ None => Raise ValueError
  | _ => Raise AttributeError
  end.

(** [s.items()] *)
Definition dict_items (s : value) : outcome (list (string * value)) :=
  match s with
  | VDict d => Ok d
  | VObj _ _ _ =>
      (* an attribute named [items] holds data, which is not callable *)
      getattr s "items" ;;; Raise TypeError
  | _ => Raise AttributeError
  end.

Section FromWire.

Variable CONTENTS_VALUES : list string.
Variable NON_DELIVERY_OPTIONS : list string.
Variable now : string.
(** [json.loads] of the standard library. *)
Variable json_loads : string -> outcome value.

(** The call [c()] of a class with no argument. *)
Definition new0 (c : cls) : outcome value :=
  new CONTENTS_VALUES NON_DELIVERY_OPTIONS now c [].

(** [ShipStationBase.from_json] *)
Definition base_from_json (self : value) (json_str : value) : outcome value :=
  s <- match json_str with
       | VResponse _ _ => response_json json_str
       | VStr text => json_loads text
       | _ => Ok json_str (* allow dict to pass *)
       end ;;
  items <- dict_items s ;;
  Ok (fold_left (fun self kv => setattr self (to_snake_case (fst kv)) (snd kv))
                items self).

(** [self.from_json(json_str)] with the overrides of
    [ShipStationWarehouse] and [ShipStationCustomer]. *)
Definition from_json (self : value) (json_str : value) : outcome value :=
  match self with
  | VObj ShipStationWarehouse _ _ =>
      d <- base_from_json self json_str ;;
      origin_address <- getattr d "origin_address" ;;
      d <- (if truthy origin_address
            then a <- new0 ShipStationAddress ;;
                 a <- base_from_json a origin_address ;;
                 Ok (setattr d "origin_address" a)
            else Ok d) ;;
      return_address <- getattr d "return_address" ;;
      if truthy return_address
      then a <- new0 ShipStationAddress ;;
           a <- base_from_json a return_address ;;
           Ok (setattr d "return_address" a)
      else Ok d
  | VObj ShipStationCustomer _ _ =>
      d <- base_from_json self json_str ;;
      marketplace_usernames <- getattr d "marketplace_usernames" ;;
      if truthy marketplace_usernames
      then xs <- iterate marketplace_usernames ;;
           us <- comprehension
                   (fun i => u <- new0 ShipStationMarketplaceUsername ;;
                             base_from_json u i) xs ;;
           Ok (setattr d "marketplace_usernames" (VList us))
      else Ok d
  | VObj _ _ _ => base_from_json self json_str
  | VClass _ => Raise TypeError
  | _ => Raise AttributeError
  end.

(** [object_type().from_json(obj)] *)
Definition parse (object_type : cls) (obj : value) : outcome value :=
  self <- new0 object_type ;;
  from_json self obj.

(** [r.json()] for whatever [object_list] is handed: a response has the
    method, and so has an entity instance (it returns a string). *)
Definition call_json (r : value) : outcome value :=
  match r with
  | VResponse _ _ => response_json r
  | VObj _ _ _ => text <- json r ;; Ok (VStr text)
  | VClass _ => Raise TypeError
  | _ => Raise AttributeError
  end.

(** [ShipStationBase.object_list] *)
Definition object_list (r : value) (object_type : cls) : outcome (list value) :=
  match r with
  | VList objs => (* already a list of json/objects *)
      comprehension (parse object_type) objs
  | _ =>
      r <- call_json r ;;
      objs <- (if isinstance r TDict then Ok [r] else iterate r) ;;
      comprehension (parse object_type) objs
  end.

End FromWire.

(* ===================================================================== *)
(** * The HTTP boundary                                                   *)
(* ===================================================================== *)

Inductive http_method : Type := GET | POST | PUT | DELETE.

(** What a call of the HTTP library is given: the URL, the credentials,
    the query parameters or the body, and the headers.  (The timeout, a
    float, does not travel and is left out.) *)
Record request : Type := Request {
  req_method : http_method;
  req_url : string;
  req_auth : value * value;
  req_params : value;
  req_data : value;
  req_headers : list (string * string)
}.

(** The requests issued so far, oldest first. *)
Definition wire : Type := list request.

(** A computation that may issue requests. *)
Definition io (A : Type) : Type := wire -> wire * outcome A.

Definition io_ret {A : Type} (a : A) : io A := fun w => (w, Ok a).

Definition io_lift {A : Type} (m : outcome A) : io A := fun w => (w, m).

Definition io_bind {A B : Type} (m : io A) (k : A -> io B) : io B :=
  fun w =>
    match m w with
    | (w', Ok a) => k a w'
    | (w', Raise e) => (w', Raise e)
    end.

Notation "x <~~ m ;; k" := (io_bind m (fun x => k))
  (at level 61, m at next level, right associativity).

(** The facade object: both variants keep the same attributes. *)
Record client : Type := Client {
  url : string;
  key : value;
  secret : value;
  orders : list value;
  debug : bool
}.

Definition set_orders (self : client) (l : list value) : client :=
  Client (url self) (key self) (secret self) l (debug self).

(** Every element of the accumulator is a [ShipStationOrder]. *)
Definition orders_well_typed (self : client) : Prop :=
  Forall (fun o => isinstance o (TEntity ShipStationOrder) = true) (orders self).

(** [options.get(key)] *)
Definition dict_get (options : value) (key : string) : outcome value :=
  match options with
  | VDict d =>
      match alist_get key d with
      | Some x => Ok x
      | None => Ok VNone
      end
  | VObj _ _ _ => getattr options "get" ;;; Raise TypeError
  | _ => Raise AttributeError
  end.

(** [for required_option in REQUIRED_RATE_OPTIONS:
       if not options.get(required_option): raise AttributeError(...)] *)
Fixpoint require_options (options : value) (required : list string)
  : outcome unit :=
  match required with
  | [] => Ok tt
  | required_option :: r =>
      x <- dict_get options required_option ;;
      if negb (truthy x) then Raise AttributeError
      else require_options options r
  end.

Section Transport.

(** The remote service as seen through the HTTP library: the response to
    a request, or the exception the library raises. *)
Variable http : request -> outcome value.

(** One call of the HTTP library: the request goes out, then the answer
    comes back; with [debug] the decoded body is printed, which needs the
    body to be JSON. *)
Definition send (self : client) (req : request) (print_body : bool) : io value :=
  fun w =>
    ((w ++ [req])%list,
     r <- http req ;;
     (if debug self && print_body then response_json r else Ok VNone) ;;;
     Ok r).

End Transport.

Definition json_headers : list (string * string) :=
  [("content-type", "application/json")].

(** ** The synchronous variant ([api.py]) *)
Module Api.
Section Api.

(** The tuples of [constants.py] the facade reads. *)
Variable ORDER_LIST_PARAMETERS : list string.
Variable CUSTOMER_LIST_PARAMETERS : list string.
Variable FULFILLMENT_LIST_PARAMETERS : list string.
Variable SHIPMENT_LIST_PARAMETERS : list string.
Variable CREATE_SHIPMENT_LABEL_OPTIONS : list string.
Variable GET_RATE_OPTIONS : list string.
Variable REQUIRED_RATE_OPTIONS : list string.
Variable SUBSCRIBE_TO_WEBHOOK_OPTIONS : list string.
Variable SUBSCRIBE_TO_WEBHOOK_EVENT_OPTIONS : list string.
Variable http : request -> outcome value.

Definition __init__ (key secret : value) (debug : bool) : outcome client :=
  match key with
  | VNone => Raise AttributeError
  | _ =>
      match secret with
      | VNone => Raise AttributeError
      | _ => Ok (Client "https://ssapi.shipstation.com" key secret [] debug)
      end
  end.

(** [self.require_type(order, ShipStationOrder)];
    [self.orders.append(order)] *)
Definition add_order (self : client) (order : value) : client * outcome unit :=
  match require_type order (TEntity ShipStationOrder) with
  | Raise e => (self, Raise e)
  | Ok _ => (set_orders self (orders self ++ [order]), Ok tt)
  end.

Definition get_orders (self : client) : list value := orders self.

Definition get (self : client) (endpoint : string) (payload : value) : io value :=
  send http self
       (Request GET (url self ++ endpoint) (key self, secret self)
                payload VNone [])
       true.

Definition post (self : client) (endpoint : string) (data : value) : io value :=
  send http self
       (Request POST (url self ++ endpoint) (key self, secret self)
                VNone data json_headers)
       true.

(** [for order in self.orders: self.post(endpoint="/orders/createorder",
     data=json.dumps(order.as_dict()))] *)
Definition submit_orders (self : client) : io unit :=
  fold_left
    (fun (acc : io unit) order =>
       _ <~~ acc ;;
       data <~~ io_lift (d <- as_dict order ;;
                         text <- json_dumps d ;; Ok (VStr text)) ;;
       _ <~~ post self "/orders/createorder" data ;;
       io_ret tt)
    (orders self) (io_ret tt).

Definition fetch_orders (self : client) (parameters : value) : io value :=
  valid_parameters <~~
    io_lift
      (require_type parameters TDict ;;;
       match parameters with
       | VDict d =>
           let invalid_keys :=
             filter (fun k => negb (str_in k ORDER_LIST_PARAMETERS))
                    (alist_keys d) in
           match invalid_keys with
           | _ :: _ => Raise AttributeError
           | [] => Ok (VDict (dict_comprehension to_camel_case d))
           end
       | _ => Raise AttributeError (* [None] has no [keys] *)
       end) ;;
  get self "/orders/list" valid_parameters.

Definition get_customer (self : client) (customer_id : value) : io value :=
  get self "/customers/customerId" (VDict [("carrierCode", customer_id)]).

Definition list_customers (self : client) (parameters : value) : io value :=
  valid_parameters <~~
    io_lift (_validate_parameters parameters CUSTOMER_LIST_PARAMETERS) ;;
  get self "/customers" valid_parameters.

Definition list_fulfillments (self : client) (parameters : value) : io value :=
  valid_parameters <~~
    io_lift (_validate_parameters parameters FULFILLMENT_LIST_PARAMETERS) ;;
  get self "/fulfillments" valid_parameters.

Definition list_shipments (self : client) (parameters : value) : io value :=
  valid_parameters <~~
    io_lift (_validate_parameters parameters SHIPMENT_LIST_PARAMETERS) ;;
  get self "/shipments" valid_parameters.

Definition delete (self : client) (endpoint : string) (payload : value) : io value :=
  send http self
       (Request DELETE (url self ++ endpoint) (key self, secret self)
                payload VNone [])
       false.

Definition list_carriers (self : client) : io value :=
  get self "/carriers/" VNone.

Definition create_shipment_label (self : client) (options : value) : io value :=
  valid_options <~~
    io_lift
      (valid_options <-
         _validate_parameters options CREATE_SHIPMENT_LABEL_OPTIONS ;;
       x <- dict_get options "weight" ;;
       require_type x (TEntity ShipStationWeight) ;;;
       x <- dict_get options "dimensions" ;;
       require_type x (TEntity ShipStationContainer) ;;;
       x <- dict_get options "ship_to" ;;
       require_type x (TEntity ShipStationAddress) ;;;
       x <- dict_get options "ship_from" ;;
       require_type x (TEntity ShipStationAddress) ;;;
       x <- dict_get options "international_options" ;;
       require_type x (TEntity ShipStationInternationalOptions) ;;;
       x <- dict_get options "advanced_options" ;;
       require_type x (TEntity ShipStationAdvancedOptions) ;;;
       Ok valid_options) ;;
  post self "/shipments/createlabel" valid_options.

Definition get_rates (self : client) (options : value) : io value :=
  valid_options <~~
    io_lift
      (x <- dict_get options "weight" ;;
       require_type x (TEntity ShipStationWeight) ;;;
       x <- dict_get options "dimensions" ;;
       require_type x (TEntity ShipStationContainer) ;;;
       valid_options <- _validate_parameters options GET_RATE_OPTIONS ;;
       require_options options REQUIRED_RATE_OPTIONS ;;;
       Ok valid_options) ;;
  post self "/shipments/getrates" valid_options.

Definition void_label (self : client) (shipment_id : value) : io value :=
  post self "/shipments/voidlabel" shipment_id.

(** [store_id = json.dumps({"storeId": str(store_id)})], for an integer
    identifier. *)
Definition deactivate_store (self : client) (store_id : Z) : io value :=
  store_id <~~
    io_lift (text <- json_dumps (VDict [("storeId", VStr (str_of_int store_id))]) ;;
             Ok (VStr text)) ;;
  post self "/stores/deactivate" store_id.

Definition delete_warehouse (self : client) (warehouse_id : Z) : io value :=
  delete self ("/warehouses/" ++ str_of_int warehouse_id) VNone.

Definition unsubscribe_to_webhook (self : client) (webhook_id : Z) : io value :=
  delete self ("/webhooks/" ++ str_of_int webhook_id) VNone.

Definition subscribe_to_webhook (self : client) (options : value) : io value :=
  data <~~
    io_lift
      ((* do not convert to camel case *)
       require_membership (VStr "target_url") SUBSCRIBE_TO_WEBHOOK_OPTIONS ;;;
       require_membership (VStr "event") SUBSCRIBE_TO_WEBHOOK_OPTIONS ;;;
       event <- dict_get options "event" ;;
       require_membership event SUBSCRIBE_TO_WEBHOOK_EVENT_OPTIONS ;;;
       text <- json_dumps options ;;
       Ok (VStr text)) ;;
  post self "/webhooks/subscribe" data.

Definition list_stores (self : client) (show_inactive marketplace_id : value)
  : io value :=
  parameters <~~
    io_lift
      (require_type show_inactive TBool ;;;
       require_type marketplace_id TInt ;;;
       let parameters := [] in
       let parameters :=
         if truthy show_inactive
         then alist_set "showInactive" show_inactive parameters
         else parameters in
       let parameters :=
         if truthy marketplace_id
         then alist_set "marketplaceId" marketplace_id parameters
         else parameters in
       Ok (VDict parameters)) ;;
  get self "/stores" parameters.

Definition get_carrier (self : client) (carrier_code : value) : io value :=
  get self "/carriers/getcarrier" (VDict [("carrierCode", carrier_code)]).

Definition list_packages (self : client) (carrier_code : value) : io value :=
  get self "/carriers/listpackages" (VDict [("carrierCode", carrier_code)]).

Definition list_services (self : client) (carrier_code : value) : io value :=
  get self "/carriers/listservices" (VDict [("carrierCode", carrier_code)]).

End Api.
End Api.

(** ** The asynchronous variant ([aio.py]) *)
Module Aio.
Section Aio.

Variable ORDER_LIST_PARAMETERS : list string.
Variable CUSTOMER_LIST_PARAMETERS : list string.
Variable FULFILLMENT_LIST_PARAMETERS : list string.
Variable SHIPMENT_LIST_PARAMETERS : list string.
Variable CREATE_SHIPMENT_LABEL_OPTIONS : list string.
Variable GET_RATE_OPTIONS : list string.
Variable REQUIRED_RATE_OPTIONS : list string.
Variable SUBSCRIBE_TO_WEBHOOK_OPTIONS : list string.
Variable SUBSCRIBE_TO_WEBHOOK_EVENT_OPTIONS : list string.
Variable http : request -> outcome value.

(** Calling an [async def] runs nothing: it returns a coroutine, which
    issues its request when it is awaited. *)
Definition coroutine : Type := io value.

Definition await (co : coroutine) : io value := co.

(** [co.name] on a coroutine object, for the names the code asks for
    ([json], [items]): there is no such attribute. *)
Definition coroutine_getattr {A : Type} (co : coroutine) (name : string)
  : outcome A := Raise AttributeError.

Definition __init__ (key secret : value) (debug : bool) : outcome client :=
  match key with
  | VNone => Raise AttributeError
  | _ =>
      match secret with
      | VNone => Raise AttributeError
      | _ => Ok (Client "https://ssapi.shipstation.com" key secret [] debug)
      end
  end.

Definition add_order (self : client) (order : value) : client * outcome unit :=
  match require_type order (TEntity ShipStationOrder) with
  | Raise e => (self, Raise e)
  | Ok _ => (set_orders self (orders self ++ [order]), Ok tt)
  end.

Definition get_orders (self : client) : list value := orders self.

Definition get (self : client) (endpoint : string) (payload : value) : coroutine :=
  send http self
       (Request GET (url self ++ endpoint) (key self, secret self)
                payload VNone [])
       true.

Definition post (self : client) (endpoint : string) (data : value) : coroutine :=
  send http self
       (Request POST (url self ++ endpoint) (key self, secret self)
                VNone data json_headers)
       true.

(** [fetch_orders] is a plain [def]: it validates, then returns the
    coroutine of [self.get]. *)
Definition fetch_orders (self : client) (parameters : value) : outcome coroutine :=
  require_type parameters TDict ;;;
  match parameters with
  | VDict d =>
      let invalid_keys :=
        filter (fun k => negb (str_in k ORDER_LIST_PARAMETERS))
               (alist_keys d) in
      match invalid_keys with
      | _ :: _ => Raise AttributeError
      | [] =>
          let valid_parameters := VDict (dict_comprehension to_camel_case d) in
          Ok (get self "/orders/list" valid_parameters)
      end
  | _ => Raise AttributeError (* [None] has no [keys] *)
  end.

(** [ShipStationCustomer().from_json(self.get(endpoint="/customers/" +
    str(customer_id)))]: the coroutine is made and never awaited, and
    [from_json] asks it for [items]. *)
Definition get_customer (self : client) (customer_id : Z) : outcome value :=
  let co := get self ("/customers/" ++ str_of_int customer_id) VNone in
  coroutine_getattr co "items".

(** [r = self.get(...)]; [r.json()] *)
Definition list_customers (self : client) (parameters : value) : outcome value :=
  valid_parameters <- _validate_parameters parameters CUSTOMER_LIST_PARAMETERS ;;
  let r := get self "/customers" valid_parameters in
  coroutine_getattr r "json".

Definition list_fulfillments (self : client) (parameters : value)
  : outcome coroutine :=
  valid_parameters <-
    _validate_parameters parameters FULFILLMENT_LIST_PARAMETERS ;;
  Ok (get self "/fulfillments" valid_parameters).

Definition list_shipments (self : client) (parameters : value) : outcome value :=
  valid_parameters <- _validate_parameters parameters SHIPMENT_LIST_PARAMETERS ;;
  let r := get self "/shipments" valid_parameters in
  coroutine_getattr r "json".

Definition delete (self : client) (endpoint : string) (payload : value) : coroutine :=
  send http self
       (Request DELETE (url self ++ endpoint) (key self, secret self)
                payload VNone [])
       false.

(** [async def list_carriers(self): return await self.get(...)]: the call
    returns the coroutine that awaits the request. *)
Definition list_carriers (self : client) : outcome coroutine :=
  Ok (fun w => await (get self "/carriers/" VNone) w).

Definition create_shipment_label (self : client) (options : value)
  : outcome coroutine :=
  valid_options <- _validate_parameters options CREATE_SHIPMENT_LABEL_OPTIONS ;;
  x <- dict_get options "weight" ;;
  require_type x (TEntity ShipStationWeight) ;;;
  x <- dict_get options "dimensions" ;;
  require_type x (TEntity ShipStationContainer) ;;;
  x <- dict_get options "ship_to" ;;
  require_type x (TEntity ShipStationAddress) ;;;
  x <- dict_get options "ship_from" ;;
  require_type x (TEntity ShipStationAddress) ;;;
  x <- dict_get options "international_options" ;;
  require_type x (TEntity ShipStationInternationalOptions) ;;;
  x <- dict_get options "advanced_options" ;;
  require_type x (TEntity ShipStationAdvancedOptions) ;;;
  Ok (post self "/shipments/createlabel" valid_options).

Definition get_rates (self : client) (options : value) : outcome coroutine :=
  x <- dict_get options "weight" ;;
  require_type x (TEntity ShipStationWeight) ;;;
  x <- dict_get options "dimensions" ;;
  require_type x (TEntity ShipStationContainer) ;;;
  valid_options <- _validate_parameters options GET_RATE_OPTIONS ;;
  require_options options REQUIRED_RATE_OPTIONS ;;;
  Ok (post self "/shipments/getrates" valid_options).

Definition void_label (self : client) (shipment_id : value) : outcome coroutine :=
  Ok (post self "/shipments/voidlabel" shipment_id).

Definition deactivate_store (self : client) (store_id : Z) : outcome coroutine :=
  text <- json_dumps (VDict [("storeId", VStr (str_of_int store_id))]) ;;
  Ok (post self "/stores/deactivate" (VStr text)).

Definition delete_warehouse (self : client) (warehouse_id : Z)
  : outcome coroutine :=
  Ok (delete self ("/warehouses/" ++ str_of_int warehouse_id) VNone).

Definition unsubscribe_to_webhook (self : client) (webhook_id : Z)
  : outcome coroutine :=
  Ok (delete self ("/webhooks/" ++ str_of_int webhook_id) VNone).

Definition subscribe_to_webhook (self : client) (options : value)
  : outcome coroutine :=
  (* do not convert to camel case *)
  require_membership (VStr "target_url") SUBSCRIBE_TO_WEBHOOK_OPTIONS ;;;
  require_membership (VStr "event") SUBSCRIBE_TO_WEBHOOK_OPTIONS ;;;
  event <- dict_get options "event" ;;
  require_membership event SUBSCRIBE_TO_WEBHOOK_EVENT_OPTIONS ;;;
  text <- json_dumps options ;;
  Ok (post self "/webhooks/subscribe" (VStr text)).

Variable CONTENTS_VALUES : list string.
Variable NON_DELIVERY_OPTIONS : list string.
Variable now : string.
Variable json_loads : string -> outcome value.

(** [carrier = await self.get(...)];
    [return ShipStationCarrier().from_json(carrier.json())] *)
Definition get_carrier (self : client) (carrier_code : value) : io value :=
  carrier <~~ await (get self "/carriers/getcarrier"
                         (VDict [("carrierCode", carrier_code)])) ;;
  io_lift (body <- response_json carrier ;;
           parse CONTENTS_VALUES NON_DELIVERY_OPTIONS now json_loads
                 ShipStationCarrier body).

(** [packages = await self.get(...)];
    [return self.object_list(packages.json(), ShipStationCarrierPackage)] *)
Definition list_packages (self : client) (carrier_code : value)
  : io (list value) :=
  packages <~~ await (get self "/carriers/listpackages"
                          (VDict [("carrierCode", carrier_code)])) ;;
  io_lift (body <- response_json packages ;;
           object_list CONTENTS_VALUES NON_DELIVERY_OPTIONS now json_loads
                       body ShipStationCarrierPackage).

Definition list_services (self : client) (carrier_code : value)
  : io (list value) :=
  services <~~ await (get self "/carriers/listservices"
                          (VDict [("carrierCode", carrier_code)])) ;;
  io_lift (body <- response_json services ;;
           object_list CONTENTS_VALUES NON_DELIVERY_OPTIONS now json_loads
                       body ShipStationCarrierService).

End Aio.
End Aio.


(* ===================================================================== *)
(** * Shapes of names                                                     *)
(* ===================================================================== *)

(** A segment of a snake_case name: one lower-case letter or more. *)
Definition segment (w : string) : bool :=
  negb (String.eqb w "") && Str.all Str.is_lower w.

(** Every segment that another segment follows has two letters at least. *)
Fixpoint followed_have_two (segments : list string) : bool :=
  match segments with
  | [] => true
  | w :: r =>
      match r with
      | [] => true
      | _ :: _ => (2 <=? String.length w)%nat && followed_have_two r
      end
  end.

(** The name as its first segment and the others, each after its
    underscore. *)
Fixpoint underscored (rest : list string) : string :=
  match rest with
  | [] => ""
  | w :: r => String "_" (w ++ underscored r)
  end.

(** The snake_case name made of a first segment and those after it. *)
Definition snake_name (first : string) (rest : list string) : string :=
  Str.join "_" (first :: rest).

(* ===================================================================== *)
(** * Weights in integers                                                 *)
(* ===================================================================== *)

(** [item] has the integer [quantity] [q] and carries a weight whose
    [value] is the integer [w]. *)
Definition weighs (item : value) (w q : Z) : Prop :=
  exists weight,
    getattr item "weight" = Ok weight /\
    getattr weight "value" = Ok (VInt w) /\
    getattr item "quantity" = Ok (VInt q).

(** What the attribute [dimensions] adds to the weight of an order:
    nothing when it is not set or has no weight, the integer [value] of its
    weight otherwise. *)
Definition container_adds (dimensions : value) (c : Z) : Prop :=
  (truthy dimensions = false /\ c = 0%Z) \/
  (truthy dimensions = true /\
   exists weight,
     getattr dimensions "weight" = Ok weight /\
     ((truthy weight = false /\ c = 0%Z) \/
      (truthy weight = true /\ getattr weight "value" = Ok (VInt c)))).

(** The sum of value times quantity over pairs (value, quantity). *)
Definition total_weight (data : list (Z * Z)) : Z :=
  fold_right (fun wq acc => (fst wq * snd wq + acc)%Z) 0%Z data.

(* ===================================================================== *)
(** * Instances for the closed examples                                   *)
(* ===================================================================== *)

(** The development is parametric in the tuples of [constants.py], in the
    clock, in [json.loads] and in the remote service.  The closed examples
    fix them: the tuples hold the names the docstring of [fetch_orders]
    uses and those of the public API of the service, the service answers
    every request with an empty JSON object, and no example decodes JSON
    text. *)
Module Sample.

Definition ORDER_STATUS_VALUES : list string :=
  ["awaiting_payment"; "awaiting_shipment"; "shipped"; "on_hold"; "cancelled"].

Definition ORDER_LIST_PARAMETERS : list string :=
  ["customer_name"; "item_keyword"; "create_date_start"; "create_date_end";
   "modify_date_start"; "modify_date_end"; "order_date_start";
   "order_date_end"; "order_number"; "order_status"; "payment_date_start";
   "payment_date_end"; "store_id"; "sort_by"; "sort_dir"; "page"; "page_size"].

Definition CUSTOMER_LIST_PARAMETERS : list string :=
  ["state_code"; "country_code"; "tag_id"; "marketplace_id"; "sort_by";
   "sort_dir"; "page"; "page_size"].

Definition FULFILLMENT_LIST_PARAMETERS : list string :=
  ["fulfillment_id"; "order_id"; "order_number"; "tracking_number";
   "recipient_name"; "create_date_start"; "create_date_end";
   "ship_date_start"; "ship_date_end"; "sort_by"; "sort_dir"; "page";
   "page_size"].

Definition SHIPMENT_LIST_PARAMETERS : list string :=
  ["recipient_name"; "recipient_country_code"; "order_number"; "order_id";
   "carrier_code"; "service_code"; "tracking_number"; "create_date_start";
   "create_date_end"; "ship_date_start"; "ship_date_end"; "void_date_start";
   "void_date_end"; "store_id"; "include_shipment_items"; "sort_by";
   "sort_dir"; "page"; "page_size"].

Definition WEIGHT_UNIT_OPTIONS : list string := ["pounds"; "ounces"; "grams"].

Definition CONTENTS_VALUES : list string :=
  ["merchandise"; "documents"; "gift"; "returned_goods"; "sample"].

Definition NON_DELIVERY_OPTIONS : list string :=
  ["return_to_sender"; "treat_as_abandoned"].

Definition now : string := "2024-01-01T00:00:00".

Definition json_loads (text : string) : outcome value := Raise ValueError.

Definition http (req : request) : outcome value :=
  Ok (VResponse 200 (Some (VDict []))).

(** The call of a class with keyword arguments. *)
Definition new (c : cls) (kwargs : attrs) : outcome value :=
  new CONTENTS_VALUES NON_DELIVERY_OPTIONS now c kwargs.

(** [ShipStation(key, secret)] *)
Definition ss : client :=
  Client "https://ssapi.shipstation.com" (VStr "key") (VStr "secret") [] false.

(** The order of the end-to-end scenario of the specification:
    [order = ShipStationOrder(order_number="1001")];
    [item = ShipStationItem(quantity=2)];
    [item.set_weight(ShipStationWeight(units="ounces", value=3))];
    [order.add_item(item)]. *)
Definition scenario_order : outcome value :=
  order <- new ShipStationOrder [("order_number", VStr "1001")] ;;
  item <- new ShipStationItem [("quantity", VInt 2)] ;;
  weight <- new ShipStationWeight [("units", VStr "ounces"); ("value", VInt 3)] ;;
  item <- returned (set_weight weight item) ;;
  returned (add_item item order).

(** An order whose status was set to ["shipped"]. *)
Definition shipped_order : outcome value :=
  order <- new ShipStationOrder [("order_number", VStr "1001")] ;;
  returned (set_status ORDER_STATUS_VALUES (VStr "shipped") order).

End Sample.

(* ===================================================================== *)
(** * Vocabulary of the further properties                                *)
(* ===================================================================== *)

Definition not_underscore (c : ascii) : bool := negb (Ascii.eqb c "_").

Definition not_upper (c : ascii) : bool := negb (Str.is_upper c).

(** The names of the attributes a class declares: those its [__init__]
    assigns and those of its [__slots__]. *)
Definition field_names (c : cls) : list string :=
  map fst (init_assignments EmptyString c)
  ++ match slots_of c with Some names => names | None => [] end.

(** The attribute names that do not come back from the wire under their
    own name. *)
Definition unstable_names : list (cls * string) :=
  [(ShipStationWeight, "WeightUnits");
   (ShipStationAdvancedOptions, "custom_field_1");
   (ShipStationAdvancedOptions, "custom_field_2");
   (ShipStationAdvancedOptions, "custom_field_3")].

(** [{f(key): value for key, value in d}] when no two keys are given the
    same name: each pair renamed, in place. *)
Definition renamed (f : string -> string) (d : attrs) : attrs :=
  map (fun kv => (f (fst kv), snd kv)) d.

(** The classes that declare [__slots__] and override neither [as_dict]
    nor [from_json], and whose [__init__] assigns every slot. *)
Definition flat_classes : list cls :=
  [ShipStationAddress; ShipStationStore; ShipStationUser;
   ShipStationMarketplace; ShipStationMarketplaceUsername;
   ShipStationCarrier; ShipStationCarrierPackage; ShipStationCarrierService].

(** The instance of class [c] as [__init__] leaves it when the values
    assigned are [vals], in the order of the body. *)
Definition instance (c : cls) (vals : list value) : value :=
  List.fold_left
    (fun self nv => setattr self (fst nv) (snd nv))
    (combine (map fst (init_assignments EmptyString c)) vals)
    (blank c).

(** [None], a boolean, an integer, a decimal or a string. *)
Definition scalar (v : value) : bool :=
  match v with
  | VNone | VBool _ | VInt _ | VDecimal _ | VStr _ => true
  | _ => false
  end.

(** The status of an order is unset or one of [ORDER_STATUS_VALUES]. *)
Definition status_valid (ORDER_STATUS_VALUES : list string) (order : value)
  : Prop :=
  exists s, getattr order "order_status" = Ok s /\
            (s = VNone \/ value_in s ORDER_STATUS_VALUES = true).

(** The value a setter of the international options stores for an
    argument: the argument, or [None] for a falsy one. *)
Definition or_none (x : value) : value := if truthy x then x else VNone.


(** [None], or an address as its constructor leaves it. *)
Definition address_or_none (v : value) : Prop :=
  v = VNone \/
  exists vals, List.length vals = 11%nat /\
               v = instance ShipStationAddress vals.


(** [options.get(key)] for a dictionary [options]. *)
Definition opt (d : attrs) (key : string) : value :=
  match alist_get key d with
  | Some x => x
  | None => VNone
  end.

(** The attribute [attr] holds [None] or an instance of [t]. *)
Definition typed_attr (self : value) (attr : string) (t : pytype) : Prop :=
  exists x, getattr self attr = Ok x /\ (x = VNone \/ isinstance x t = true).

(** The text [submit_orders] posts for an order. *)
Definition order_text (order : value) : outcome string :=
  d <- as_dict order ;; json_dumps d.

(** The request [submit_orders] issues for the text of an order. *)
Definition createorder (self : client) (text : string) : request :=
  Request POST (url self ++ "/orders/createorder") (key self, secret self)
          VNone (VStr text) json_headers.

(** Every element is a customs item or [None]. *)
Definition customs_items_typed (items : list value) : Prop :=
  Forall (fun x => x = VNone \/
                   isinstance x (TEntity ShipStationCustomsItem) = true) items.

(* ===================================================================== *)
(** * Examples of the naming converter                                    *)
(* ===================================================================== *)

Example to_camel_case_order_status :
  to_camel_case "order_status" = "orderStatus".
Proof. reflexivity. Qed.

Example to_snake_case_order_status :
  to_snake_case "orderStatus" = "order_status".
Proof. reflexivity. Qed.

Example to_snake_case_acronym :
  to_snake_case "isLabelAPIHook" = "is_label_apihook".
Proof. reflexivity. Qed.

(* ===================================================================== *)
(** * Properties of the naming converter                                  *)
(* ===================================================================== *)

Module NamingFacts.

Import Str.

Lemma is_lower_facts {c : ascii} :
  is_lower c = true ->
  is_upper c = false /\ lower_char c = c /\ Ascii.eqb c "_" = false /\
  is_cased c = true /\ is_upper (upper_char c) = true /\
  lower_char (upper_char c) = c.
Proof.
  destruct c as [[] [] [] [] [] [] [] []]; vm_compute; intros H;
    try discriminate H; repeat split.
Qed.

Lemma append_nil_r (s : string) : s ++ "" = s.
Proof. induction s; simpl; congruence. Qed.

Lemma append_assoc (a b c : string) : (a ++ b) ++ c = a ++ b ++ c.
Proof. induction a; simpl; congruence. Qed.

Lemma lower_app (a b : string) : lower (a ++ b) = lower a ++ lower b.
Proof. induction a; simpl; congruence. Qed.

Lemma all_app (p : ascii -> bool) (a b : string) :
  all p (a ++ b) = all p a && all p b.
Proof. induction a; simpl; [reflexivity|]. rewrite IHa. apply andb_assoc. Qed.

Lemma lower_lowercase {w : string} : all is_lower w = true -> lower w = w.
Proof.
  induction w as [|c w IH]; simpl; [reflexivity|].
  intros H. apply andb_true_iff in H as [Hc Hw].
  destruct (is_lower_facts Hc) as (_ & -> & _). now rewrite IH.
Qed.

Lemma title_from_cased_lowercase (w : string) :
  all is_lower w = true -> title_from true w = w.
Proof.
  induction w as [|c w IH]; simpl; [reflexivity|].
  intros H. apply andb_true_iff in H as [Hc Hw].
  destruct (is_lower_facts Hc) as (_ & -> & _ & -> & _). now rewrite IH.
Qed.

Lemma title_segment {c : ascii} {w : string} :
  all is_lower (String c w) = true ->
  title (String c w) = String (upper_char c) w.
Proof.
  simpl. intros H. apply andb_true_iff in H as [Hc Hw].
  unfold title. simpl.
  destruct (is_lower_facts Hc) as (_ & _ & _ & -> & _).
  now rewrite title_from_cased_lowercase.
Qed.

Lemma segment_inv {w : string} :
  segment w = true ->
  exists c w', w = String c w' /\ is_lower c = true /\ all is_lower w' = true.
Proof.
  unfold segment. destruct w as [|c w']; simpl; [discriminate|].
  intros H. apply andb_true_iff in H as [Hc Hw]. eauto.
Qed.

Lemma segment_lowercase {w : string} : segment w = true -> all is_lower w = true.
Proof. unfold segment. intros H. now apply andb_true_iff in H as [_ H]. Qed.

(** The regular expression finds nothing in a lower-case word. *)
Lemma sub_lowercase {w : string} :
  all is_lower w = true -> snake_case_regex_sub w = w.
Proof.
  induction w as [|c w IH]; [reflexivity|].
  intros H. simpl in H. apply andb_true_iff in H as [Hc Hw].
  specialize (IH Hw). destruct w as [|c2 w2]; [reflexivity|].
  simpl in Hw. apply andb_true_iff in Hw as [Hc2 _].
  destruct (is_lower_facts Hc2) as (Hu & _).
  change (snake_case_regex_sub (String c (String c2 w2)))
    with (if (is_lower c || is_digit c) && is_upper c2
          then String c (String "_" (String c2 (snake_case_regex_sub w2)))
          else String c (snake_case_regex_sub (String c2 w2))).
  rewrite Hu, andb_false_r. now rewrite IH.
Qed.

(** It finds the end of a lower-case word that an upper-case letter
    follows, and goes on after that letter. *)
Lemma sub_word_upper {w : string} {C : ascii} (t : string) :
  segment w = true -> is_upper C = true ->
  snake_case_regex_sub (w ++ String C t)
  = w ++ String "_" (String C (snake_case_regex_sub t)).
Proof.
  intros Hw HC. apply segment_inv in Hw as (c & w' & -> & Hc & Hw').
  revert c Hc. induction w' as [|c2 w2 IH]; intros c Hc.
  - simpl. now rewrite Hc, HC.
  - simpl in Hw'. apply andb_true_iff in Hw' as [Hc2 Hw2].
    destruct (is_lower_facts Hc2) as (Hu & _).
    change (snake_case_regex_sub (String c (String c2 w2) ++ String C t))
      with (if (is_lower c || is_digit c) && is_upper c2
            then String c (String "_" (String c2
                   (snake_case_regex_sub (w2 ++ String C t))))
            else String c (snake_case_regex_sub (String c2 w2 ++ String C t))).
    rewrite Hu, andb_false_r. now rewrite (IH Hw2 c2 Hc2).
Qed.

Lemma join0_cons (x : string) (l : list string) : join0 (x :: l) = x ++ join0 l.
Proof.
  unfold join0. destruct l as [|y l]; simpl; [now rewrite append_nil_r|reflexivity].
Qed.

Lemma snake_name_underscored (first : string) (rest : list string) :
  snake_name first rest = first ++ underscored rest.
Proof.
  unfold snake_name, join. revert first.
  induction rest as [|w r IH]; intros first; simpl.
  - now rewrite append_nil_r.
  - f_equal. simpl. f_equal. apply IH.
Qed.

Lemma lower_snake {first : string} {rest : list string} :
  segment first = true -> forallb segment rest = true ->
  lower (first ++ underscored rest) = first ++ underscored rest.
Proof.
  intros Hf Hr. rewrite lower_app, (lower_lowercase (segment_lowercase Hf)).
  f_equal. induction rest as [|w r IH]; [reflexivity|].
  simpl in Hr. apply andb_true_iff in Hr as [Hw Hr].
  simpl. rewrite lower_app, (lower_lowercase (segment_lowercase Hw)), (IH Hr).
  reflexivity.
Qed.

Lemma split_lowercase_app {w : string} (t tok : string) (toks : list string) :
  all is_lower w = true ->
  split "_" t = tok :: toks ->
  split "_" (w ++ t) = (w ++ tok) :: toks.
Proof.
  intros H Ht. induction w as [|c w IH]; [exact Ht|].
  simpl in H. apply andb_true_iff in H as [Hc Hw].
  destruct (is_lower_facts Hc) as (_ & _ & Hne & _).
  simpl. now rewrite Hne, (IH Hw).
Qed.

Lemma split_snake {first : string} {rest : list string} :
  segment first = true -> forallb segment rest = true ->
  split "_" (first ++ underscored rest) = first :: rest.
Proof.
  revert first. induction rest as [|w r IH]; intros first Hf Hr.
  - rewrite (split_lowercase_app "" "" [])
      by (reflexivity || apply (segment_lowercase Hf)).
    now rewrite append_nil_r.
  - simpl in Hr. apply andb_true_iff in Hr as [Hw Hr].
    rewrite (split_lowercase_app (underscored (w :: r)) "" (w :: r)).
    + now rewrite append_nil_r.
    + apply (segment_lowercase Hf).
    + simpl. now rewrite (IH w Hw Hr).
Qed.

Lemma to_camel_case_snake (first : string) (rest : list string) :
  segment first = true -> forallb segment rest = true ->
  to_camel_case (snake_name first rest) = first ++ join0 (map title rest).
Proof.
  intros Hf Hr. unfold to_camel_case.
  rewrite snake_name_underscored, (lower_snake Hf Hr), (split_snake Hf Hr).
  reflexivity.
Qed.

Lemma snake_of_camel (rest : list string) :
  forall first,
  segment first = true -> forallb segment rest = true ->
  followed_have_two rest = true ->
  lower (snake_case_regex_sub (first ++ join0 (map title rest)))
  = first ++ underscored rest.
Proof.
  induction rest as [|w r IH]; intros first Hf Hr Hlong.
  - simpl. unfold join0. simpl. rewrite append_nil_r.
    rewrite (sub_lowercase (segment_lowercase Hf)).
    apply lower_lowercase, segment_lowercase, Hf.
  - simpl in Hr. apply andb_true_iff in Hr as [Hw Hr].
    destruct (segment_inv Hw) as (c & w' & -> & Hc & Hw').
    simpl map. rewrite join0_cons.
    rewrite (title_segment (c := c) (w := w'))
      by (simpl; now rewrite Hc, Hw').
    destruct (is_lower_facts Hc) as (_ & _ & _ & _ & HC & Hback).
    simpl append at 2.
    rewrite (sub_word_upper _ Hf HC).
    rewrite lower_app. simpl lower. rewrite Hback.
    rewrite (lower_lowercase (segment_lowercase Hf)).
    simpl underscored. do 3 f_equal.
    destruct r as [|w2 r2].
    + simpl. unfold join0. simpl. rewrite !append_nil_r.
      rewrite (sub_lowercase Hw'). now apply lower_lowercase.
    + simpl in Hlong. apply andb_true_iff in Hlong as [Hlen Hlong].
      assert (Hseg : segment w' = true).
      { unfold segment. rewrite Hw'. destruct w'; [discriminate Hlen|reflexivity]. }
      apply (IH w' Hseg Hr Hlong).
Qed.

End NamingFacts.

(** C4, as stated, fails: with lower-case segments joined by single
    underscores and nothing more asked of them, [a_b_c] goes to [aBC] and
    comes back as [a_bc], because the regular expression finds no lower-case
    character in front of the [C]. *)
Lemma roundtrip_fails_on_a_b_c :
  segment "a" = true /\ forallb segment ["b"; "c"] = true /\
  snake_name "a" ["b"; "c"] = "a_b_c" /\
  to_camel_case "a_b_c" = "aBC" /\
  to_snake_case (to_camel_case (snake_name "a" ["b"; "c"])) = "a_bc" /\
  to_snake_case (to_camel_case (snake_name "a" ["b"; "c"]))
  <> snake_name "a" ["b"; "c"].
Proof. repeat split; try reflexivity. vm_compute. discriminate. Qed.

(** C4, amended: for every snake_case name made of segments of lower-case
    letters joined by single underscores, in which every segment that is
    neither the first nor the last has two letters at least (so that every
    segment starts a single lower-to-upper transition of the wire name),
    [to_snake_case (to_camel_case s) = s]. *)
Theorem to_snake_case_to_camel_case (first : string) (rest : list string) :
  segment first = true ->
  forallb segment rest = true ->
  followed_have_two rest = true ->
  to_snake_case (to_camel_case (snake_name first rest)) = snake_name first rest.
Proof.
  intros Hf Hr Hlong. unfold to_snake_case.
  rewrite (NamingFacts.to_camel_case_snake _ _ Hf Hr).
  rewrite (NamingFacts.snake_of_camel rest first Hf Hr Hlong).
  symmetry. apply NamingFacts.snake_name_underscored.
Qed.

Lemma to_snake_case_to_camel_case_witness :
  segment "bill" = true /\
  forallb segment ["to"; "my"; "other"; "account"] = true /\
  followed_have_two ["to"; "my"; "other"; "account"] = true /\
  to_snake_case (to_camel_case "bill_to_my_other_account")
  = "bill_to_my_other_account".
Proof.
  refine (conj eq_refl (conj eq_refl (conj eq_refl _))).
  exact (to_snake_case_to_camel_case "bill" ["to"; "my"; "other"; "account"]
           eq_refl eq_refl eq_refl).
Defined.

(* ===================================================================== *)
(** * Properties of the validation helpers and of the entities            *)
(* ===================================================================== *)

(** [require_type] lets [None] through, whatever the type asked for. *)
Lemma require_type_None (t : pytype) : require_type VNone t = Ok tt.
Proof. reflexivity. Qed.

Lemma require_type_spec (x : value) (t : pytype) :
  require_type x t = Raise AttributeError <->
  x <> VNone /\ isinstance x t = false.
Proof.
  unfold require_type. destruct x; destruct (isinstance _ t) eqn:E;
    split; try discriminate; try (intros [H _]; now contradiction H);
    try (intros [_ H]; discriminate H); intros _; split; congruence.
Qed.

Lemma require_membership_spec (v : value) (other : list string) :
  require_membership v other = Raise AttributeError <-> value_in v other = false.
Proof.
  unfold require_membership. destruct (value_in v other); split; congruence.
Qed.

(** [_validate_parameters] accepts every dictionary: it never looks at the
    keys it is told are valid. *)
Lemma _validate_parameters_dict (d : attrs) (valid_parameters : list string) :
  _validate_parameters (VDict d) valid_parameters
  = Ok (VDict (dict_comprehension to_camel_case d)).
Proof. reflexivity. Qed.

(** C2 (the code departs from it): a dictionary with a key outside the
    allowed keys is not rejected; it comes back renamed. *)
Theorem validate_parameters_accepts_unknown_key :
  str_in "bogus_key" ["page"; "page_size"] = false /\
  _validate_parameters (VDict [("bogus_key", VStr "1")]) ["page"; "page_size"]
  = Ok (VDict [("bogusKey", VStr "1")]).
Proof. split; reflexivity. Qed.

(** What [ShipStationCustomsItem.__init__] comes to: the checks in the
    order of the body, then the instance. *)
Lemma new_customs_item_unfold
  (CONTENTS_VALUES NON_DELIVERY_OPTIONS : list string) (now : string)
  (description quantity value_ harmonized_tariff_code country_of_origin : value) :
  new_customs_item CONTENTS_VALUES NON_DELIVERY_OPTIONS now description
    quantity value_ harmonized_tariff_code country_of_origin
  = ((if truthy description then Ok tt else Raise AttributeError) ;;;
     (if truthy harmonized_tariff_code then Ok tt else Raise AttributeError) ;;;
     (if truthy country_of_origin then Ok tt else Raise AttributeError) ;;;
     require_type value_ TDecimal ;;;
     n <- len country_of_origin ;;
     if negb (n =? 2)%Z then Raise AttributeError
     else Ok (VObj ShipStationCustomsItem []
                [("description", description); ("quantity", quantity);
                 ("value", value_);
                 ("harmonized_tariff_code", harmonized_tariff_code);
                 ("country_of_origin", country_of_origin)])).
Proof.
  unfold new_customs_item, new. cbn.
  destruct (truthy description); cbn; [|reflexivity].
  destruct (truthy harmonized_tariff_code); cbn; [|reflexivity].
  destruct (truthy country_of_origin); cbn; [|reflexivity].
  destruct (require_type value_ TDecimal); cbn; [|reflexivity].
  destruct (len country_of_origin) as [n|e]; cbn; [|reflexivity].
  destruct (negb (n =? 2)%Z); reflexivity.
Qed.

(** C5: constructing a customs item raises when [description],
    [harmonized_tariff_code] or [country_of_origin] is falsy, when
    [country_of_origin] is a string that is not two characters long, and
    when [value] is given and is not a [Decimal]; it returns the instance
    when the first two are truthy, [country_of_origin] is ["US"] and
    [value] is a [Decimal]. *)
Theorem customs_item_construction
  (CONTENTS_VALUES NON_DELIVERY_OPTIONS : list string) (now : string)
  (description quantity value_ harmonized_tariff_code country_of_origin : value) :
  ((truthy description = false \/
    truthy harmonized_tariff_code = false \/
    truthy country_of_origin = false \/
    (exists s, country_of_origin = VStr s /\ String.length s <> 2%nat) \/
    (value_ <> VNone /\ isinstance value_ TDecimal = false)) ->
   raises (new_customs_item CONTENTS_VALUES NON_DELIVERY_OPTIONS now
             description quantity value_ harmonized_tariff_code
             country_of_origin))
  /\
  (truthy description = true ->
   truthy harmonized_tariff_code = true ->
   country_of_origin = VStr "US" ->
   isinstance value_ TDecimal = true ->
   new_customs_item CONTENTS_VALUES NON_DELIVERY_OPTIONS now
     description quantity value_ harmonized_tariff_code country_of_origin
   = Ok (VObj ShipStationCustomsItem []
           [("description", description); ("quantity", quantity);
            ("value", value_);
            ("harmonized_tariff_code", harmonized_tariff_code);
            ("country_of_origin", VStr "US")])).
Proof.
  rewrite new_customs_item_unfold. split.
  - intros H. unfold raises.
    destruct (truthy description) eqn:Hd; cbn; [|eauto].
    destruct (truthy harmonized_tariff_code) eqn:Hh; cbn; [|eauto].
    destruct (truthy country_of_origin) eqn:Hc; cbn; [|eauto].
    destruct (require_type value_ TDecimal) as [[]|e] eqn:Ht; cbn; [|eauto].
    destruct H as [H|[H|[H|[(s & -> & Hlen)|Hv]]]]; try discriminate H.
    + cbn. destruct (Z.of_nat (String.length s) =? 2)%Z eqn:E; cbn; [|eauto].
      apply Z.eqb_eq in E. lia.
    + apply require_type_spec in Hv. congruence.
  - intros Hd Hh -> Hv. rewrite Hd, Hh. cbn.
    destruct value_; try discriminate Hv. reflexivity.
Qed.

Lemma customs_item_construction_witness :
  raises (new_customs_item Sample.CONTENTS_VALUES Sample.NON_DELIVERY_OPTIONS
            Sample.now (VStr "shirt") (VInt 1) (VDecimal (Dec 1000 (-2)))
            (VStr "6109") (VStr "USA"))
  /\
  new_customs_item Sample.CONTENTS_VALUES Sample.NON_DELIVERY_OPTIONS
    Sample.now (VStr "shirt") (VInt 1) (VDecimal (Dec 1000 (-2)))
    (VStr "6109") (VStr "US")
  = Ok (VObj ShipStationCustomsItem []
          [("description", VStr "shirt"); ("quantity", VInt 1);
           ("value", VDecimal (Dec 1000 (-2)));
           ("harmonized_tariff_code", VStr "6109");
           ("country_of_origin", VStr "US")]).
Proof.
  split.
  - apply (proj1 (customs_item_construction Sample.CONTENTS_VALUES
             Sample.NON_DELIVERY_OPTIONS Sample.now (VStr "shirt") (VInt 1)
             (VDecimal (Dec 1000 (-2))) (VStr "6109") (VStr "USA"))).
    right; right; right; left. exists "USA". split; [reflexivity|].
    simpl. discriminate.
  - apply (proj2 (customs_item_construction Sample.CONTENTS_VALUES
             Sample.NON_DELIVERY_OPTIONS Sample.now (VStr "shirt") (VInt 1)
             (VDecimal (Dec 1000 (-2))) (VStr "6109") (VStr "US")));
      reflexivity.
Defined.

(** C6, as stated, fails: the empty string is not null and is not an
    order status, yet [set_status("")] raises nothing and clears the
    status of an order that was ["shipped"]. *)
Lemma set_status_empty_string_clears :
  VStr "" <> VNone /\
  value_in (VStr "") Sample.ORDER_STATUS_VALUES = false /\
  exists order order',
    Sample.shipped_order = Ok order /\
    getattr order "order_status" = Ok (VStr "shipped") /\
    set_status Sample.ORDER_STATUS_VALUES (VStr "") order = (order', Ok tt) /\
    getattr order' "order_status" = Ok VNone.
Proof.
  split; [discriminate|]. split; [reflexivity|].
  eexists. eexists. split; [reflexivity|].
  split; [reflexivity|]. split; reflexivity.
Qed.

(** A falsy status, [None] or not, clears the status: the design of
    [set_status]. *)
Lemma set_status_falsy (ORDER_STATUS_VALUES : list string) (status order : value) :
  truthy status = false ->
  set_status ORDER_STATUS_VALUES status order
  = (setattr order "order_status" VNone, Ok tt).
Proof. intros H. unfold set_status. now rewrite H. Qed.

Lemma set_status_member (ORDER_STATUS_VALUES : list string) (status order : value) :
  truthy status = true -> value_in status ORDER_STATUS_VALUES = true ->
  set_status ORDER_STATUS_VALUES status order
  = (setattr order "order_status" status, Ok tt).
Proof. intros H1 H2. unfold set_status. now rewrite H1, H2. Qed.

(** C6, amended: for every order and every truthy status (which excludes
    [None], but also the empty string, zero and [False]) that is not in
    [ORDER_STATUS_VALUES], [set_status] raises [AttributeError] and the
    order after the call is the order before it, [order_status]
    included. *)
Theorem set_status_rejects_unknown
  (ORDER_STATUS_VALUES : list string) (status order : value) :
  truthy status = true ->
  value_in status ORDER_STATUS_VALUES = false ->
  set_status ORDER_STATUS_VALUES status order = (order, Raise AttributeError) /\
  getattr (fst (set_status ORDER_STATUS_VALUES status order)) "order_status"
  = getattr order "order_status".
Proof.
  intros H1 H2. unfold set_status. rewrite H1, H2. split; reflexivity.
Qed.

Lemma set_status_rejects_unknown_witness :
  exists order,
    Sample.shipped_order = Ok order /\
    set_status Sample.ORDER_STATUS_VALUES (VStr "delivered") order
    = (order, Raise AttributeError) /\
    getattr (fst (set_status Sample.ORDER_STATUS_VALUES (VStr "delivered") order))
            "order_status"
    = Ok (VStr "shipped").
Proof.
  eexists. split; [reflexivity|].
  split.
  - apply set_status_rejects_unknown; reflexivity.
  - etransitivity.
    + apply set_status_rejects_unknown; reflexivity.
    + reflexivity.
Defined.

(* ===================================================================== *)
(** * Properties of the facade                                            *)
(* ===================================================================== *)

Lemma filter_nil_iff {A : Type} (p : A -> bool) (l : list A) :
  filter p l = [] <-> forall a, In a l -> p a = false.
Proof.
  induction l as [|x l IH]; simpl.
  - split; [intros _ a []|reflexivity].
  - destruct (p x) eqn:Hx.
    + split; [discriminate|]. intros H. specialize (H x (or_introl eq_refl)).
      congruence.
    + rewrite IH. split.
      * intros H a [<-|Ha]; auto.
      * intros H a Ha. apply H. now right.
Qed.

(** C7: [fetch_orders] of either variant, given a dictionary with a key
    outside [ORDER_LIST_PARAMETERS], raises [AttributeError] and no
    request has been issued; given a dictionary whose keys are all
    recognized, the synchronous variant issues exactly one request, a GET
    of [/orders/list] whose query parameters are the dictionary with its
    keys in camelCase, and returns what the transport returns, and the
    asynchronous variant returns the coroutine of that very request. *)
Theorem fetch_orders_validates_keys
  (ORDER_LIST_PARAMETERS : list string) (http : request -> outcome value)
  (self : client) (d : attrs) (w : wire) :
  let req := Request GET (url self ++ "/orders/list") (key self, secret self)
                     (VDict (dict_comprehension to_camel_case d)) VNone [] in
  ((exists k, In k (alist_keys d) /\ str_in k ORDER_LIST_PARAMETERS = false) ->
   Api.fetch_orders ORDER_LIST_PARAMETERS http self (VDict d) w
   = (w, Raise AttributeError) /\
   Aio.fetch_orders ORDER_LIST_PARAMETERS http self (VDict d)
   = Raise AttributeError)
  /\
  ((forall k, In k (alist_keys d) -> str_in k ORDER_LIST_PARAMETERS = true) ->
   Api.fetch_orders ORDER_LIST_PARAMETERS http self (VDict d) w
   = ((w ++ [req])%list,
      r <- http req ;;
      (if debug self then response_json r else Ok VNone) ;;; Ok r) /\
   Aio.fetch_orders ORDER_LIST_PARAMETERS http self (VDict d)
   = Ok (send http self req true) /\
   Aio.await (send http self req true) w
   = Api.fetch_orders ORDER_LIST_PARAMETERS http self (VDict d) w).
Proof.
  intros req.
  unfold Api.fetch_orders, Aio.fetch_orders, io_bind, io_lift, Api.get, Aio.get.
  cbn [require_type isinstance bind].
  destruct (filter (fun k => negb (str_in k ORDER_LIST_PARAMETERS))
                   (alist_keys d)) as [|bad bads] eqn:Hf.
  - split.
    + intros (k & Hin & Hk). exfalso.
      pose proof (proj1 (filter_nil_iff _ _) Hf k Hin) as Hn. cbn in Hn.
      rewrite Hk in Hn. discriminate Hn.
    + intros _. unfold send, Aio.await. cbn. rewrite andb_true_r.
      repeat split; reflexivity.
  - split.
    + intros _. split; reflexivity.
    + intros Hall. exfalso.
      assert (Hin : In bad (filter (fun k => negb (str_in k ORDER_LIST_PARAMETERS))
                                   (alist_keys d))) by (rewrite Hf; now left).
      apply filter_In in Hin as [Hin Hbad]. rewrite (Hall bad Hin) in Hbad.
      discriminate Hbad.
Qed.

Lemma fetch_orders_validates_keys_witness :
  Api.fetch_orders Sample.ORDER_LIST_PARAMETERS Sample.http Sample.ss
    (VDict [("order_status", VStr "shipped"); ("colour", VStr "red")]) []
  = ([], Raise AttributeError)
  /\
  Api.fetch_orders Sample.ORDER_LIST_PARAMETERS Sample.http Sample.ss
    (VDict [("order_status", VStr "shipped"); ("page", VStr "2")]) []
  = ([Request GET "https://ssapi.shipstation.com/orders/list"
              (VStr "key", VStr "secret")
              (VDict [("orderStatus", VStr "shipped"); ("page", VStr "2")])
              VNone []],
     Ok (VResponse 200 (Some (VDict [])))).
Proof.
  split.
  - apply (proj1 (fetch_orders_validates_keys Sample.ORDER_LIST_PARAMETERS
             Sample.http Sample.ss
             [("order_status", VStr "shipped"); ("colour", VStr "red")] [])).
    exists "colour". split; [right; left; reflexivity|reflexivity].
  - apply (proj2 (fetch_orders_validates_keys Sample.ORDER_LIST_PARAMETERS
             Sample.http Sample.ss
             [("order_status", VStr "shipped"); ("page", VStr "2")] [])).
    intros k [<-|[<-|[]]]; reflexivity.
Defined.


(** The asynchronous [list_customers] and [list_shipments] never return:
    they ask the coroutine of [self.get] for the decoded body. *)
Lemma aio_list_customers_raises
  (CUSTOMER_LIST_PARAMETERS : list string) (http : request -> outcome value)
  (self : client) (parameters : value) :
  raises (Aio.list_customers CUSTOMER_LIST_PARAMETERS http self parameters).
Proof.
  unfold raises, Aio.list_customers, Aio.coroutine_getattr.
  destruct (_validate_parameters parameters CUSTOMER_LIST_PARAMETERS);
    cbn; eauto.
Qed.



(** The accumulator of a new client is empty. *)
Lemma init_orders_well_typed (key secret : value) (debug : bool) (self : client) :
  Api.__init__ key secret debug = Ok self -> orders_well_typed self.
Proof.
  unfold Api.__init__. destruct key, secret; intros H; inversion H;
    constructor.
Qed.

(** [add_order] turns away what is neither [None] nor an order, and the
    client is left as it was. *)
Lemma add_order_rejects (self : client) (order : value) :
  order <> VNone ->
  isinstance order (TEntity ShipStationOrder) = false ->
  Api.add_order self order = (self, Raise AttributeError) /\
  Aio.add_order self order = (self, Raise AttributeError).
Proof.
  intros Hn Hi. unfold Api.add_order, Aio.add_order.
  rewrite (proj2 (require_type_spec order _) (conj Hn Hi)). split; reflexivity.
Qed.

(** With an argument that is not [None], [add_order] keeps the
    accumulator well typed. *)
Lemma add_order_preserves (self : client) (order : value) :
  order <> VNone ->
  orders_well_typed self ->
  orders_well_typed (fst (Api.add_order self order)) /\
  orders_well_typed (fst (Aio.add_order self order)).
Proof.
  intros Hn Hwt. unfold Api.add_order, Aio.add_order, require_type.
  destruct order; try contradiction;
    destruct (isinstance _ _) eqn:Hi; cbn; split; try exact Hwt;
    unfold orders_well_typed; cbn; apply Forall_app; split; try exact Hwt;
    constructor; auto.
Qed.

(** C10 (the code departs from it): [add_order(None)] raises nothing and
    appends [None], in both variants, so the accumulator of a new client
    stops being a list of orders. *)
Theorem add_order_appends_None :
  orders_well_typed Sample.ss /\
  Api.add_order Sample.ss VNone = (set_orders Sample.ss [VNone], Ok tt) /\
  Aio.add_order Sample.ss VNone = (set_orders Sample.ss [VNone], Ok tt) /\
  ~ orders_well_typed (fst (Api.add_order Sample.ss VNone)) /\
  ~ orders_well_typed (fst (Aio.add_order Sample.ss VNone)).
Proof.
  split; [constructor|]. split; [reflexivity|]. split; [reflexivity|].
  split; intros H; inversion H as [|x l Hx Hl]; discriminate Hx.
Qed.

(** After [add_order(None)], [submit_orders] fails on [None.as_dict()]
    before it has sent anything. *)
Example submit_orders_after_None :
  Api.submit_orders Sample.http (fst (Api.add_order Sample.ss VNone)) []
  = ([], Raise AttributeError).
Proof. reflexivity. Qed.

(* ===================================================================== *)
(** * Properties of [get_weight]                                          *)
(* ===================================================================== *)

Lemma comprehension_Forall2 {A B : Type} (f : A -> outcome B)
  (l : list A) (out : list B) :
  comprehension f l = Ok out <-> Forall2 (fun a b => f a = Ok b) l out.
Proof.
  revert out. induction l as [|a l IH]; intros out; simpl.
  - split.
    + intros H. inversion H. constructor.
    + intros H. inversion H. reflexivity.
  - destruct (f a) as [b|e] eqn:Hfa; cbn.
    + destruct (comprehension f l) as [bs|e] eqn:Hl; cbn.
      * split.
        -- intros H. inversion H. constructor; [assumption|]. now apply IH.
        -- intros H. inversion H as [|? ? ? ? Hb Hbs]; subst.
           apply IH in Hbs. congruence.
      * split; [discriminate|].
        intros H. inversion H as [|? ? ? ? Hb Hbs]; subst.
        apply IH in Hbs. discriminate Hbs.
    + split; [discriminate|].
      intros H. inversion H as [|? ? ? ? Hb Hbs]; subst. congruence.
Qed.

Lemma py_sum_from (zs : list Z) (a : Z) :
  fold_left (fun acc x => s <- acc ;; py_add s x) (map VInt zs) (Ok (VInt a))
  = Ok (VInt (a + fold_right Z.add 0%Z zs)).
Proof.
  revert a. induction zs as [|z zs IH]; intros a.
  - simpl. f_equal. f_equal. lia.
  - change (fold_left (fun acc x => s <- acc ;; py_add s x)
                      (map VInt zs) (Ok (VInt (a + z)))
            = Ok (VInt (a + fold_right Z.add 0%Z (z :: zs)))).
    rewrite IH. simpl. f_equal. f_equal. lia.
Qed.

Lemma total_weight_products (data : list (Z * Z)) :
  fold_right Z.add 0%Z (map (fun wq => (fst wq * snd wq)%Z) data)
  = total_weight data.
Proof. induction data as [|wq data IH]; simpl; congruence. Qed.

Lemma products_of_items (items : list value) (data : list (Z * Z)) :
  Forall2 (fun item wq => weighs item (fst wq) (snd wq)) items data ->
  comprehension
    (fun item =>
       w <- getattr item "weight" ;;
       v <- getattr w "value" ;;
       q <- getattr item "quantity" ;;
       py_mul v q) items
  = Ok (map VInt (map (fun wq => (fst wq * snd wq)%Z) data)).
Proof.
  intros H. apply comprehension_Forall2.
  induction H as [|item wq items data (weight & Hw & Hv & Hq) _ IH];
    simpl; constructor; [|exact IH].
  rewrite Hw. cbn. rewrite Hv. cbn. rewrite Hq. reflexivity.
Qed.






(** A decimal weight is rounded half to even at the second place. *)
Example get_weight_decimal :
  (order <- Sample.new ShipStationOrder [] ;;
   item <- Sample.new ShipStationItem [("quantity", VInt 3)] ;;
   weight <- Sample.new ShipStationWeight
               [("units", VStr "ounces"); ("value", VDecimal (Dec 1335 (-3)))] ;;
   item <- returned (set_weight weight item) ;;
   order <- returned (add_item item order) ;;
   get_weight order)
  = Ok (VDict [("units", VStr "ounces"); ("value", VDecimal (Dec 400 (-2)))]).
Proof. reflexivity. Qed.

(** An item without a weight makes [get_weight] raise. *)
Example get_weight_item_without_weight :
  (order <- Sample.new ShipStationOrder [] ;;
   item <- Sample.new ShipStationItem [("quantity", VInt 3)] ;;
   order <- returned (add_item item order) ;;
   get_weight order)
  = Raise AttributeError.
Proof. reflexivity. Qed.

(* ===================================================================== *)
(** * Properties of [object_list]                                         *)
(* ===================================================================== *)

(** C3, as stated, fails: an already-decoded single wire object is not a
    list, so [object_list] asks it for its [json] method, which a
    dictionary does not have. *)
Lemma object_list_rejects_decoded_object :
  object_list Sample.CONTENTS_VALUES Sample.NON_DELIVERY_OPTIONS Sample.now
              Sample.json_loads (VDict [("a", VInt 1)]) ShipStationUser
  = Raise AttributeError.
Proof. reflexivity. Qed.

(** C3, amended: for every entity type [X], [object_list] applied to a
    response whose decoded body is a single wire object returns the
    one-element list of [X().from_json] of that object (and raises what
    that raises); applied to an already-decoded list it returns, when
    [X().from_json] returns for every element, a list of the same length
    holding [X().from_json] of each element in input order, and it returns
    nothing else. *)
Theorem object_list_spec
  (CONTENTS_VALUES NON_DELIVERY_OPTIONS : list string) (now : string)
  (json_loads : string -> outcome value) (X : cls) :
  let parse := parse CONTENTS_VALUES NON_DELIVERY_OPTIONS now json_loads X in
  let object_list r :=
    object_list CONTENTS_VALUES NON_DELIVERY_OPTIONS now json_loads r X in
  (forall (status : Z) (d : attrs),
     object_list (VResponse status (Some (VDict d)))
     = (o <- parse (VDict d) ;; Ok [o]))
  /\
  (forall objs : list value,
     (Forall (fun obj => exists o, parse obj = Ok o) objs ->
      exists out, object_list (VList objs) = Ok out)
     /\
     (forall out,
        object_list (VList objs) = Ok out ->
        List.length out = List.length objs /\
        Forall2 (fun obj o => parse obj = Ok o) objs out)).
Proof.
  intros parse0 object_list0. subst parse0 object_list0. split.
  - intros status d. unfold object_list. cbn.
    destruct (parse _ _ _ _ X (VDict d)); reflexivity.
  - intros objs. unfold object_list. split.
    + induction 1 as [|obj objs (o & Ho) _ (out & IH)]; cbn.
      * eauto.
      * rewrite Ho, IH. cbn. eauto.
    + intros out H. apply comprehension_Forall2 in H. split; [|exact H].
      symmetry. eapply Forall2_length, H.
Qed.

Lemma object_list_spec_witness :
  exists a b,
    object_list Sample.CONTENTS_VALUES Sample.NON_DELIVERY_OPTIONS Sample.now
      Sample.json_loads
      (VList [VDict [("a", VInt 1)]; VDict [("a", VInt 2)]]) ShipStationUser
    = Ok [a; b] /\
    getattr a "a" = Ok (VInt 1) /\ getattr b "a" = Ok (VInt 2).
Proof.
  destruct (proj2 (object_list_spec Sample.CONTENTS_VALUES
                     Sample.NON_DELIVERY_OPTIONS Sample.now Sample.json_loads
                     ShipStationUser)
                  [VDict [("a", VInt 1)]; VDict [("a", VInt 2)]])
    as [Hreturns Horder].
  destruct Hreturns as [out Hout].
  { repeat constructor; eexists; reflexivity. }
  destruct (Horder out Hout) as [Hlen Hall].
  inversion Hall as [|? a ? out1 Ha Hall1]; subst.
  inversion Hall1 as [|? b ? out2 Hb Hall2]; subst.
  inversion Hall2; subst.
  exists a, b. split; [exact Hout|].
  inversion Ha; inversion Hb. split; reflexivity.
Defined.

Example object_list_response_single_object :
  object_list Sample.CONTENTS_VALUES Sample.NON_DELIVERY_OPTIONS Sample.now
    Sample.json_loads (VResponse 200 (Some (VDict [("userName", VStr "ann")])))
    ShipStationUser
  = Ok [VObj ShipStationUser
          [("name", VNone); ("user_id", VNone); ("user_name", VStr "ann")] []].
Proof. reflexivity. Qed.

(** A class whose constructor needs arguments cannot be listed. *)
Example object_list_customs_items :
  object_list Sample.CONTENTS_VALUES Sample.NON_DELIVERY_OPTIONS Sample.now
    Sample.json_loads (VList [VDict [("description", VStr "shirt")]])
    ShipStationCustomsItem
  = Raise AttributeError.
Proof. reflexivity. Qed.

(* ===================================================================== *)
(** * Properties of [json]                                                *)
(* ===================================================================== *)

(** What [ShipStationBase.json] does to one value of the dictionary: a
    boolean and a number become strings, an entity instance (like
    everything else that is not a class) is left as it is. *)
Lemma json_coerce_spec :
  (forall b, json_coerce (VBool b) = Ok (VStr (if b then "true" else "false"))) /\
  (forall z, json_coerce (VInt z) = Ok (VStr (str_of_int z))) /\
  (forall d, json_coerce (VDecimal d) = Ok (VStr (dec_str d))) /\
  (forall c slots dict, json_coerce (VObj c slots dict) = Ok (VObj c slots dict)) /\
  (forall d, json_coerce (VDict d) = Ok (VDict d)) /\
  (forall l, json_coerce (VList l) = Ok (VList l)).
Proof. repeat split. Qed.

(** The values of the dictionary [ShipStationBase.json] serializes are
    those of [as_dict], each converted by [json_coerce], under the same
    keys in the same order. *)
Lemma base_json_dict_spec (self : value) (d d' : attrs) :
  as_dict self = Ok (VDict d) ->
  base_json_dict self = Ok (VDict d') ->
  Forall2 (fun kv kv' => fst kv' = fst kv /\ json_coerce (snd kv) = Ok (snd kv'))
          d d'.
Proof.
  unfold base_json_dict. intros ->. cbn [bind].
  destruct (comprehension _ d) as [items|e] eqn:H; cbn [bind]; [|discriminate].
  intros H'. inversion H'. subst items.
  apply comprehension_Forall2 in H.
  clear H'. induction H as [|kv kv' d d' Hkv _ IH]; [constructor|].
  constructor; [|exact IH].
  destruct (json_coerce (snd kv)) as [x|e] eqn:Hx; cbn in Hkv; [|discriminate].
  inversion Hkv. split; reflexivity.
Qed.

(** An entity without nested values is serialized as C1 says. *)
Example json_address :
  (a <- Sample.new ShipStationAddress
          [("name", VStr "Ann"); ("residential", VBool true)] ;;
   base_json_dict a)
  = Ok (VDict [("name", VStr "Ann"); ("company", VNone); ("street1", VNone);
               ("street2", VNone); ("street3", VNone); ("city", VNone);
               ("state", VNone); ("postalCode", VNone); ("country", VNone);
               ("phone", VNone); ("residential", VStr "true")]).
Proof. reflexivity. Qed.

(** C1 (the code departs from it): [ShipStationOrder.json] converts
    nothing, so the [Decimal] amounts of a new order stay decimals in
    [as_dict] and [json.dumps] raises [TypeError]; and
    [ShipStationBase.json] does not serialize an owned entity: a container
    with a weight raises [NameError] in [as_dict], a warehouse with an
    address comes out with the boolean of the address unconverted, and
    international options with a customs item raise [TypeError] on the
    [Decimal] of the item. *)
Theorem json_does_not_convert_nested_values :
  (order <- Sample.new ShipStationOrder [("order_number", VStr "1001")] ;;
   d <- as_dict order ;; getitem d "amountPaid")
  = Ok (VDecimal (Dec 0 0))
  /\
  (order <- Sample.new ShipStationOrder [("order_number", VStr "1001")] ;;
   json order)
  = Raise TypeError
  /\
  (container <- Sample.new ShipStationContainer [] ;;
   weight <- Sample.new ShipStationWeight
               [("units", VStr "ounces"); ("value", VInt 3)] ;;
   container <- returned (set_weight weight container) ;;
   json container)
  = Raise NameError
  /\
  (address <- Sample.new ShipStationAddress [("residential", VBool true)] ;;
   warehouse <- Sample.new ShipStationWarehouse [("origin_address", address)] ;;
   j <- base_json_dict warehouse ;;
   a <- getitem j "originAddress" ;; getitem a "residential")
  = Ok (VBool true)
  /\
  (options <- Sample.new ShipStationInternationalOptions [] ;;
   item <- new_customs_item Sample.CONTENTS_VALUES Sample.NON_DELIVERY_OPTIONS
             Sample.now (VStr "shirt") (VInt 1) (VDecimal (Dec 1000 (-2)))
             (VStr "6109") (VStr "US") ;;
   options <- returned (add_customs_item item options) ;;
   json options)
  = Raise TypeError.
Proof. repeat split. Qed.

(* ===================================================================== *)
(** * The recursion of [as_dict] is bounded by the depth of the receiver  *)
(* ===================================================================== *)

Module Bounded.

Lemma safe_Ok {A : Type} (a : A) : safe (Ok a).
Proof. discriminate. Qed.

Lemma safe_bind {A B : Type} (m : outcome A) (k : A -> outcome B) :
  safe m -> (forall a, m = Ok a -> safe (k a)) -> safe (bind m k).
Proof.
  unfold safe. destruct m as [a|e]; cbn; intros Hm Hk; [now apply Hk|].
  congruence.
Qed.

Lemma safe_comprehension {A B : Type} (f : A -> outcome B) (l : list A) :
  Forall (fun a => safe (f a)) l -> safe (comprehension f l).
Proof.
  induction 1 as [|a l Ha _ IH]; cbn; [apply safe_Ok|].
  apply safe_bind; [exact Ha|]. intros b _.
  apply safe_bind; [exact IH|]. intros bs _. apply safe_Ok.
Qed.

Lemma safe_getattr (v : value) (name : string) : safe (getattr v name).
Proof.
  unfold safe, getattr. destruct v; try discriminate.
  destruct (alist_get _ _); discriminate.
Qed.

Lemma safe_iterate (v : value) : safe (iterate v).
Proof. unfold safe. destruct v; discriminate. Qed.

Lemma safe_setitem (d : value) (k : string) (x : value) : safe (setitem d k x).
Proof. unfold safe. destruct d; discriminate. Qed.

Lemma safe_getitem (d : value) (k : string) : safe (getitem d k).
Proof.
  unfold safe, getitem. destruct d; try discriminate.
  destruct (alist_get _ _); discriminate.
Qed.

Lemma safe_py_mul (a b : value) : safe (py_mul a b).
Proof.
  unfold safe, py_mul.
  destruct (as_int a), (as_int b); try discriminate;
    destruct a; try discriminate; destruct b; discriminate.
Qed.

Lemma safe_py_add (a b : value) : safe (py_add a b).
Proof.
  unfold safe, py_add.
  destruct (as_int a), (as_int b); try discriminate;
    destruct a; try discriminate; destruct b; discriminate.
Qed.

Lemma safe_py_sum_from (xs : list value) (acc : outcome value) :
  safe acc ->
  safe (fold_left (fun acc x => a <- acc ;; py_add a x) xs acc).
Proof.
  revert acc. induction xs as [|x xs IH]; intros acc Hacc; cbn; [exact Hacc|].
  apply IH. apply safe_bind; [exact Hacc|]. intros a _. apply safe_py_add.
Qed.

Lemma safe_py_round2 (v : value) : safe (py_round2 v).
Proof.
  unfold safe. destruct v; cbn; try discriminate.
  unfold dec_round2.
  repeat match goal with
         | |- context [if ?b then _ else _] => destruct b
         end; cbn; discriminate.
Qed.

Lemma safe_get_weight (self : value) : safe (get_weight self).
Proof.
  unfold get_weight.
  apply safe_bind; [apply safe_getattr|]. intros items _.
  apply safe_bind; [apply safe_iterate|]. intros xs _.
  apply safe_bind.
  { apply safe_comprehension, Forall_forall. intros item _.
    repeat (apply safe_bind; [apply safe_getattr|]; intros ? _).
    apply safe_py_mul. }
  intros products _.
  apply safe_bind; [apply safe_py_sum_from, safe_Ok|]. intros weight _.
  apply safe_bind; [apply safe_getattr|]. intros dimensions _.
  apply safe_bind.
  { destruct (truthy dimensions); [|apply safe_Ok].
    apply safe_bind; [apply safe_getattr|]. intros dw _.
    destruct (truthy dw); [|apply safe_Ok].
    apply safe_bind; [apply safe_getattr|]. intros dwv _. apply safe_py_add. }
  intros weight' _.
  apply safe_bind; [apply safe_py_round2|]. intros rounded _. apply safe_Ok.
Qed.

Lemma safe_base_as_dict (self : value) : safe (base_as_dict self).
Proof.
  unfold base_as_dict. destruct self; try discriminate.
  destruct dict; [|apply safe_Ok].
  destruct (slots_of c) as [[|name names]|]; try discriminate.
  apply safe_bind; [|intros; apply safe_Ok].
  apply safe_comprehension, Forall_forall. intros key' _.
  apply safe_bind; [apply safe_getattr|]. intros; apply safe_Ok.
Qed.

Lemma alist_get_depth (k : string) (d : attrs) (x : value) :
  alist_get k d = Some x ->
  (depth x <= list_max (map (fun kv => depth (snd kv)) d))%nat.
Proof.
  induction d as [|[k' v] d IH]; [discriminate|].
  change (list_max (map (fun kv => depth (snd kv)) ((k', v) :: d)))
    with (Nat.max (depth v) (list_max (map (fun kv => depth (snd kv)) d))).
  cbn [alist_get]. destruct (String.eqb k k').
  - intros H. inversion H. lia.
  - intros H. specialize (IH H). lia.
Qed.

Lemma getattr_depth (v : value) (name : string) (x : value) :
  getattr v name = Ok x -> (depth x < depth v)%nat.
Proof.
  unfold getattr. destruct v; try discriminate.
  destruct (is_slot c name);
    (destruct (alist_get _ _) as [y|] eqn:E; [|discriminate]);
    intros H; inversion H; subst y;
    apply alist_get_depth in E; cbn [depth]; lia.
Qed.

Lemma list_max_In (n : nat) (l : list nat) : In n l -> (n <= list_max l)%nat.
Proof.
  intros H.
  pose proof (proj1 (list_max_le l (list_max l)) (Nat.le_refl _)) as Hall.
  rewrite Forall_forall in Hall. now apply Hall.
Qed.

Lemma iterate_depth (v : value) (xs : list value) :
  iterate v = Ok xs -> Forall (fun x => (depth x <= depth v)%nat) xs.
Proof.
  destruct v as [| | | |s|l|d| | |]; cbn [iterate]; try discriminate;
    intros H; inversion H; subst xs; apply Forall_forall; intros x Hx.
  - apply in_map_iff in Hx as (c & <- & _). cbn. lia.
  - pose proof (list_max_In (depth x) (map depth l) (in_map depth l x Hx)).
    cbn [depth]. lia.
  - apply in_map_iff in Hx as (kv & <- & _). cbn. lia.
Qed.

(** With more fuel than the receiver is deep, [as_dict_upto] does not run
    out of fuel. *)
Lemma safe_as_dict_upto (fuel : nat) :
  forall self, (depth self < fuel)%nat -> safe (as_dict_upto fuel self).
Proof.
  induction fuel as [|fuel IH]; intros self Hd; [lia|].
  assert (Hattr : forall name x,
             getattr self name = Ok x -> safe (as_dict_upto fuel x)).
  { intros name x Hx. apply IH. apply getattr_depth in Hx. lia. }
  assert (Hitems : forall name x xs,
             getattr self name = Ok x -> iterate x = Ok xs ->
             safe (comprehension (as_dict_upto fuel) xs)).
  { intros name x xs Hx Hxs. apply safe_comprehension.
    apply getattr_depth in Hx. apply iterate_depth in Hxs.
    eapply Forall_impl; [|exact Hxs]. cbn. intros y Hy. apply IH. lia. }
  cbn [as_dict_upto].
  destruct self; try discriminate.
  destruct c;
    repeat first
      [ apply safe_Ok
      | apply safe_base_as_dict
      | apply safe_getattr
      | apply safe_iterate
      | apply safe_setitem
      | apply safe_getitem
      | apply safe_get_weight
      | discriminate
      | match goal with
        | H : getattr _ _ = Ok ?x |- safe (as_dict_upto _ ?x) =>
            exact (Hattr _ _ H)
        | H : getattr _ _ = Ok ?x, H' : iterate ?x = Ok ?xs
          |- safe (comprehension _ ?xs) => exact (Hitems _ _ _ H H')
        | |- safe (bind _ _) => apply safe_bind; [|intros ? ?]
        | |- safe (if ?b then _ else _) => destruct b
        | |- safe (match ?t with _ => _ end) => destruct t
        end ].
Qed.

(** [as_dict] never ends on the recursion limit of the embedding. *)
Lemma safe_as_dict (self : value) : safe (as_dict self).
Proof. apply safe_as_dict_upto. lia. Qed.

End Bounded.

(* ===================================================================== *)
(** * Further properties of the naming converter                          *)
(* ===================================================================== *)

Module NamingMore.

Import Str.

Lemma not_underscore_facts (c : ascii) :
  not_underscore c = true ->
  not_underscore (lower_char c) = true /\ not_underscore (upper_char c) = true.
Proof.
  destruct c as [[] [] [] [] [] [] [] []]; vm_compute; intros H;
    try discriminate H; split; reflexivity.
Qed.

Lemma not_upper_lower_char (c : ascii) : not_upper (lower_char c) = true.
Proof. destruct c as [[] [] [] [] [] [] [] []]; reflexivity. Qed.

Lemma lower_char_not_upper (c : ascii) :
  not_upper c = true -> lower_char c = c.
Proof.
  unfold not_upper, lower_char. destruct (is_upper c); [discriminate|reflexivity].
Qed.

Lemma all_title_from (b : bool) (t : string) :
  all not_underscore t = true -> all not_underscore (title_from b t) = true.
Proof.
  revert b. induction t as [|c t IH]; intros b; simpl; [reflexivity|].
  intros H. apply andb_true_iff in H as [Hc Ht].
  destruct (not_underscore_facts c Hc) as [Hl Hu].
  rewrite (IH _ Ht), andb_true_r. now destruct b.
Qed.

Lemma split_tokens (s : string) :
  Forall (fun t => all not_underscore t = true) (split "_" s).
Proof.
  induction s as [|c s IH]; simpl; [repeat constructor|].
  destruct (Ascii.eqb c "_") eqn:E.
  - constructor; [reflexivity|exact IH].
  - destruct (split "_" s) as [|tok toks].
    + repeat constructor. simpl. unfold not_underscore. now rewrite E.
    + inversion IH as [|? ? Htok Htoks]; subst. constructor; [|exact Htoks].
      simpl. unfold not_underscore at 1. now rewrite E, Htok.
Qed.

Lemma all_join0 (p : ascii -> bool) (l : list string) :
  Forall (fun t => all p t = true) l -> all p (join0 l) = true.
Proof.
  induction 1 as [|t l Ht _ IH]; [reflexivity|].
  rewrite NamingFacts.join0_cons, NamingFacts.all_app, Ht, IH. reflexivity.
Qed.

Lemma all_lower_not_underscore (s : string) :
  all not_underscore s = true -> all not_underscore (lower s) = true.
Proof.
  induction s as [|c s IH]; simpl; [reflexivity|].
  intros H. apply andb_true_iff in H as [Hc Hs].
  destruct (not_underscore_facts c Hc) as [-> _]. now rewrite IH.
Qed.

Lemma split_no_underscore (s : string) :
  all not_underscore s = true -> split "_" s = [s].
Proof.
  induction s as [|c s IH]; simpl; [reflexivity|].
  intros H. apply andb_true_iff in H as [Hc Hs].
  unfold not_underscore in Hc. apply negb_true_iff in Hc.
  now rewrite Hc, (IH Hs).
Qed.

Lemma all_not_upper_lower (s : string) : all not_upper (lower s) = true.
Proof.
  induction s as [|c s IH]; simpl; [reflexivity|].
  now rewrite not_upper_lower_char, IH.
Qed.

Lemma lower_not_upper (s : string) : all not_upper s = true -> lower s = s.
Proof.
  induction s as [|c s IH]; simpl; [reflexivity|].
  intros H. apply andb_true_iff in H as [Hc Hs].
  now rewrite (lower_char_not_upper c Hc), (IH Hs).
Qed.

Lemma sub_not_upper (s : string) :
  all not_upper s = true -> snake_case_regex_sub s = s.
Proof.
  induction s as [|c s IH]; [reflexivity|].
  intros H. simpl in H. apply andb_true_iff in H as [Hc Hs].
  specialize (IH Hs). destruct s as [|c2 s2]; [reflexivity|].
  simpl in Hs. apply andb_true_iff in Hs as [Hc2 _].
  unfold not_upper in Hc2. apply negb_true_iff in Hc2.
  change (snake_case_regex_sub (String c (String c2 s2)))
    with (if (is_lower c || is_digit c) && is_upper c2
          then String c (String "_" (String c2 (snake_case_regex_sub s2)))
          else String c (snake_case_regex_sub (String c2 s2))).
  rewrite Hc2, andb_false_r. now rewrite IH.
Qed.

Lemma camel_no_underscore (name : string) :
  all not_underscore (to_camel_case name) = true.
Proof.
  unfold to_camel_case.
  pose proof (split_tokens (lower name)) as H.
  destruct (split "_" (lower name)) as [|first_word tokens]; [reflexivity|].
  inversion H as [|? ? Hf Ht]; subst.
  rewrite NamingFacts.all_app, Hf. cbn [andb].
  apply all_join0. apply Forall_map.
  eapply Forall_impl; [|exact Ht]. intros t. apply all_title_from.
Qed.

(** On a name without underscore [to_camel_case] is [lower]. *)
Lemma camel_of_no_underscore (name : string) :
  all not_underscore name = true -> to_camel_case name = lower name.
Proof.
  intros H. unfold to_camel_case.
  rewrite (split_no_underscore _ (all_lower_not_underscore _ H)).
  apply NamingFacts.append_nil_r.
Qed.

End NamingMore.

(** X1: a wire name never holds an underscore, whatever the name it is
    made from. *)
Theorem to_camel_case_no_underscore (name : string) :
  Str.all not_underscore (to_camel_case name) = true.
Proof. apply NamingMore.camel_no_underscore. Qed.

(** X2: [to_camel_case] is not idempotent: on a name without underscore,
    and so on every wire name, it is [lower]; converting twice gives the
    wire name in lower case. *)
Theorem to_camel_case_twice (name : string) :
  to_camel_case (to_camel_case name) = Str.lower (to_camel_case name).
Proof.
  apply NamingMore.camel_of_no_underscore, NamingMore.camel_no_underscore.
Qed.

(** X3: an internal name holds no upper-case letter, and
    [to_snake_case] is idempotent. *)
Theorem to_snake_case_idempotent (name : string) :
  Str.all not_upper (to_snake_case name) = true /\
  to_snake_case (to_snake_case name) = to_snake_case name.
Proof.
  assert (H : Str.all not_upper (to_snake_case name) = true)
    by apply NamingMore.all_not_upper_lower.
  split; [exact H|].
  unfold to_snake_case at 1.
  rewrite (NamingMore.sub_not_upper _ H). now apply NamingMore.lower_not_upper.
Qed.

(** X4: every attribute name the entity classes declare comes back from
    the wire under its own name, but for [WeightUnits] of the weight and
    [custom_field_1], [custom_field_2], [custom_field_3] of the advanced
    options, which do not. *)
Theorem field_names_round_trip (c : cls) (name : string) :
  In name (field_names c) ->
  (to_snake_case (to_camel_case name) = name <-> ~ In (c, name) unstable_names).
Proof.
  intros Hin. destruct c; cbn in Hin;
    repeat (destruct Hin as [<-|Hin];
            [vm_compute; split;
             [ intros E; try discriminate E; intros H;
               repeat (destruct H as [H|H]; [discriminate H|]); exact H
             | intros H; try reflexivity; exfalso; apply H; clear H;
               repeat (first [left; reflexivity | right]) ]
            |]);
    contradiction Hin.
Qed.

Lemma field_names_round_trip_witness :
  to_snake_case (to_camel_case "bill_to_my_other_account")
  = "bill_to_my_other_account"
  <-> ~ In (ShipStationAdvancedOptions, "bill_to_my_other_account")
           unstable_names.
Proof.
  apply (field_names_round_trip ShipStationAdvancedOptions
           "bill_to_my_other_account").
  vm_compute. tauto.
Defined.

(* ===================================================================== *)
(** * Dictionaries and attributes                                         *)
(* ===================================================================== *)

Module Alist.

Lemma get_set_eq {V : Type} (k : string) (v : V) (d : list (string * V)) :
  alist_get k (alist_set k v d) = Some v.
Proof.
  induction d as [|[k' v'] d IH]; simpl.
  - now rewrite String.eqb_refl.
  - destruct (String.eqb k k') eqn:E; simpl.
    + now rewrite String.eqb_refl.
    + now rewrite E.
Qed.

Lemma get_set_neq {V : Type} (k k' : string) (v : V) (d : list (string * V)) :
  k <> k' -> alist_get k (alist_set k' v d) = alist_get k d.
Proof.
  intros Hne. induction d as [|[k2 v2] d IH]; simpl.
  - apply String.eqb_neq in Hne. now rewrite Hne.
  - destruct (String.eqb k' k2) eqn:E; simpl.
    + apply String.eqb_eq in E. subst k2.
      apply String.eqb_neq in Hne. now rewrite Hne.
    + destruct (String.eqb k k2); [reflexivity|exact IH].
Qed.

Lemma get_None_notin {V : Type} (k : string) (d : list (string * V)) :
  alist_get k d = None <-> ~ In k (alist_keys d).
Proof.
  induction d as [|[k' v'] d IH]; simpl; [tauto|].
  destruct (String.eqb k k') eqn:E.
  - apply String.eqb_eq in E. subst. split; [discriminate|]. intros H.
    exfalso. apply H. now left.
  - apply String.eqb_neq in E. rewrite IH. split.
    + intros H [H'|H']; [congruence|contradiction].
    + intros H H'. apply H. now right.
Qed.

Lemma set_notin {V : Type} (k : string) (v : V) (d : list (string * V)) :
  ~ In k (alist_keys d) -> alist_set k v d = (d ++ [(k, v)])%list.
Proof.
  induction d as [|[k' v'] d IH]; simpl; [reflexivity|].
  intros H. destruct (String.eqb k k') eqn:E.
  - apply String.eqb_eq in E. subst. exfalso. apply H. now left.
  - f_equal. apply IH. intros H'. apply H. now right.
Qed.

Lemma keys_set {V : Type} (k : string) (v : V) (d : list (string * V)) :
  alist_keys (alist_set k v d)
  = if str_in k (alist_keys d) then alist_keys d
    else (alist_keys d ++ [k])%list.
Proof.
  unfold alist_keys, str_in.
  induction d as [|[k' v'] d IH]; simpl; [reflexivity|].
  destruct (String.eqb k k') eqn:E; simpl.
  - apply String.eqb_eq in E. now subst.
  - rewrite IH. now destruct (existsb _ _).
Qed.

Lemma str_in_In (k : string) (l : list string) : str_in k l = true <-> In k l.
Proof.
  unfold str_in. rewrite existsb_exists. split.
  - intros (x & Hx & E). apply String.eqb_eq in E. now subst.
  - intros H. exists k. split; [exact H|apply String.eqb_refl].
Qed.

Lemma nodup_set {V : Type} (k : string) (v : V) (d : list (string * V)) :
  NoDup (alist_keys d) -> NoDup (alist_keys (alist_set k v d)).
Proof.
  intros H. rewrite keys_set. destruct (str_in k (alist_keys d)) eqn:E;
    [exact H|].
  apply NoDup_app; [exact H|repeat constructor; intros []|].
  intros x Hx [<-|[]]. apply str_in_In in Hx. congruence.
Qed.

Lemma get_app {V : Type} (k : string) (a b : list (string * V)) :
  alist_get k (a ++ b)
  = match alist_get k a with Some v => Some v | None => alist_get k b end.
Proof.
  induction a as [|[k' v'] a IH]; simpl; [reflexivity|].
  now destruct (String.eqb k k').
Qed.

(** In a dictionary without repeated key, a pair is found under its key. *)
Lemma get_In {V : Type} (k : string) (v : V) (d : list (string * V)) :
  NoDup (alist_keys d) -> In (k, v) d -> alist_get k d = Some v.
Proof.
  induction d as [|[k' v'] d IH]; simpl; [contradiction|].
  intros Hnd [E|Hin].
  - inversion E. subst. now rewrite String.eqb_refl.
  - inversion Hnd as [|? ? Hk' Hd]; subst.
    destruct (String.eqb k k') eqn:E.
    + apply String.eqb_eq in E. subst. exfalso. apply Hk'.
      change k' with (fst (k', v)). now apply in_map.
    + now apply IH.
Qed.

(** The comprehension, started from a dictionary [acc]. *)
Lemma fold_get (f : string -> string) (d acc : attrs) (K : string) :
  alist_get K (fold_left (fun a kv => alist_set (f (fst kv)) (snd kv) a) d acc)
  = match alist_get K (rev (renamed f d)) with
    | Some v => Some v
    | None => alist_get K acc
    end.
Proof.
  revert acc. induction d as [|[k v] d IH]; intros acc; [reflexivity|].
  cbn [fold_left fst snd]. rewrite IH.
  cbn [renamed map rev fst snd]. fold (renamed f d). rewrite get_app.
  destruct (alist_get K (rev (renamed f d))); [reflexivity|].
  cbn [alist_get]. destruct (String.eqb K (f k)) eqn:E.
  - apply String.eqb_eq in E. subst. apply get_set_eq.
  - apply String.eqb_neq in E. now apply get_set_neq.
Qed.

Lemma fold_nodup (f : string -> string) (d acc : attrs) :
  NoDup (alist_keys acc) ->
  NoDup (alist_keys
           (fold_left (fun a kv => alist_set (f (fst kv)) (snd kv) a) d acc)).
Proof.
  revert acc. induction d as [|[k v] d IH]; intros acc H; [exact H|].
  apply IH, nodup_set, H.
Qed.

Lemma fold_distinct (f : string -> string) (d acc : attrs) :
  NoDup (alist_keys acc ++ map f (alist_keys d)) ->
  fold_left (fun a kv => alist_set (f (fst kv)) (snd kv) a) d acc
  = (acc ++ renamed f d)%list.
Proof.
  revert acc. induction d as [|[k v] d IH]; intros acc H; cbn.
  - now rewrite app_nil_r.
  - cbn in H. rewrite set_notin.
    + rewrite IH.
      * now rewrite <- app_assoc.
      * unfold alist_keys. rewrite map_app. cbn. rewrite <- app_assoc. exact H.
    + apply NoDup_remove_2 in H. intros Hin. apply H.
      apply in_or_app. now left.
Qed.

End Alist.

(** X5: [_validate_parameters] returns, for every dictionary, a dictionary
    without repeated key in which each wire name holds the value of the
    last key given that name; when no two keys are given the same wire
    name it is the dictionary with each key renamed, in the same order. *)
Theorem validate_parameters_renames (d : attrs) (valid_parameters : list string) :
  exists r,
    _validate_parameters (VDict d) valid_parameters = Ok (VDict r) /\
    NoDup (alist_keys r) /\
    (forall K, alist_get K r = alist_get K (rev (renamed to_camel_case d))) /\
    (NoDup (map to_camel_case (alist_keys d)) -> r = renamed to_camel_case d).
Proof.
  eexists. split; [reflexivity|]. unfold dict_comprehension. split; [|split].
  - apply Alist.fold_nodup. constructor.
  - intros K. rewrite Alist.fold_get.
    now destruct (alist_get K (rev (renamed to_camel_case d))).
  - intros H. now rewrite Alist.fold_distinct.
Qed.

Lemma validate_parameters_renames_witness :
  _validate_parameters
    (VDict [("page_size", VInt 10); ("sort_by", VStr "name");
            ("page_Size", VInt 50)]) []
  = Ok (VDict [("pageSize", VInt 50); ("sortBy", VStr "name")]) /\
  _validate_parameters
    (VDict [("page_size", VInt 10); ("sort_by", VStr "name")]) []
  = Ok (VDict (renamed to_camel_case
                 [("page_size", VInt 10); ("sort_by", VStr "name")])).
Proof.
  split; [reflexivity|].
  destruct (validate_parameters_renames
              [("page_size", VInt 10); ("sort_by", VStr "name")] [])
    as (r & Hr & _ & _ & Hd).
  rewrite Hr. f_equal. f_equal. apply Hd.
  repeat constructor; cbn; intuition discriminate.
Defined.

(* ===================================================================== *)
(** * Entities to the wire and back                                       *)
(* ===================================================================== *)

Ltac exact_length vals H :=
  repeat (destruct vals as [|? vals]; [discriminate H|]);
  destruct vals; [clear H|discriminate H].

(** X6: for the classes with slots that override neither [as_dict] nor
    [from_json] (address, store, user, marketplace, marketplace username,
    carrier, carrier package and service), parsing the wire object of an
    instance into a new instance gives the instance back, whatever the
    values of its attributes. *)
Theorem flat_entity_round_trip
  (CONTENTS_VALUES NON_DELIVERY_OPTIONS : list string) (now : string)
  (json_loads : string -> outcome value) (c : cls) (vals : list value) :
  In c flat_classes ->
  List.length vals = List.length (init_assignments EmptyString c) ->
  (d <- as_dict (instance c vals) ;;
   parse CONTENTS_VALUES NON_DELIVERY_OPTIONS now json_loads c d)
  = Ok (instance c vals).
Proof.
  intros Hin Hlen.
  repeat (destruct Hin as [<-|Hin];
          [cbn in Hlen; exact_length vals Hlen; reflexivity|]).
  contradiction Hin.
Qed.

Lemma flat_entity_round_trip_witness :
  (d <- as_dict (instance ShipStationUser [VStr "Ann"; VInt 7; VStr "ann"]) ;;
   parse Sample.CONTENTS_VALUES Sample.NON_DELIVERY_OPTIONS Sample.now
         Sample.json_loads ShipStationUser d)
  = Ok (VObj ShipStationUser
          [("name", VStr "Ann"); ("user_id", VInt 7); ("user_name", VStr "ann")]
          []).
Proof.
  apply (flat_entity_round_trip Sample.CONTENTS_VALUES
           Sample.NON_DELIVERY_OPTIONS Sample.now Sample.json_loads
           ShipStationUser [VStr "Ann"; VInt 7; VStr "ann"]).
  - right; right; left; reflexivity.
  - reflexivity.
Defined.

(** X7: the constructor of [ShipStationWebhook] never assigns the slot
    [store], so [as_dict] and [json] raise [AttributeError] on every
    webhook it has made. *)
Theorem webhook_as_dict_raises
  (CONTENTS_VALUES NON_DELIVERY_OPTIONS : list string) (now : string)
  (kwargs : attrs) (webhook : value) :
  new CONTENTS_VALUES NON_DELIVERY_OPTIONS now ShipStationWebhook kwargs
  = Ok webhook ->
  as_dict webhook = Raise AttributeError /\ json webhook = Raise AttributeError.
Proof.
  unfold new. destruct (forallb _ _); [|discriminate].
  cbn. intros H. inversion H. split; reflexivity.
Qed.

Lemma webhook_as_dict_raises_witness :
  exists webhook,
    Sample.new ShipStationWebhook [("url", VStr "http://example.com/hook")]
    = Ok webhook /\
    as_dict webhook = Raise AttributeError /\
    json webhook = Raise AttributeError.
Proof.
  eexists. split; [vm_compute; reflexivity|].
  apply (webhook_as_dict_raises Sample.CONTENTS_VALUES
           Sample.NON_DELIVERY_OPTIONS Sample.now
           [("url", VStr "http://example.com/hook")]).
  vm_compute. reflexivity.
Defined.

(** X8: the wire object of a weight shows its units only once [set_units]
    has accepted them: after the constructor [units] is [None] on the wire
    whatever was given; [set_units] raises and changes nothing when the
    units are not in [WEIGHT_UNIT_OPTIONS], and otherwise makes them
    appear. *)
Theorem weight_units_after_set_units
  (CONTENTS_VALUES NON_DELIVERY_OPTIONS WEIGHT_UNIT_OPTIONS : list string)
  (now : string) (units value_ : value) :
  exists weight,
    new CONTENTS_VALUES NON_DELIVERY_OPTIONS now ShipStationWeight
        [("units", units); ("value", value_)] = Ok weight /\
    as_dict weight = Ok (VDict [("value", value_); ("units", VNone)]) /\
    (value_in units WEIGHT_UNIT_OPTIONS = false ->
     weight_set_units WEIGHT_UNIT_OPTIONS weight = (weight, Raise AttributeError)) /\
    (value_in units WEIGHT_UNIT_OPTIONS = true ->
     exists weight',
       weight_set_units WEIGHT_UNIT_OPTIONS weight = (weight', Ok tt) /\
       as_dict weight' = Ok (VDict [("value", value_); ("units", units)])).
Proof.
  eexists. split; [reflexivity|]. split; [reflexivity|].
  unfold weight_set_units, abind, read, lift, require_membership. cbn.
  split; intros H; rewrite H; [reflexivity|].
  eexists. split; reflexivity.
Qed.

Lemma weight_units_after_set_units_witness :
  exists weight weight',
    Sample.new ShipStationWeight [("units", VStr "ounces"); ("value", VInt 3)]
    = Ok weight /\
    weight_set_units Sample.WEIGHT_UNIT_OPTIONS weight = (weight', Ok tt) /\
    as_dict weight' = Ok (VDict [("value", VInt 3); ("units", VStr "ounces")]).
Proof.
  destruct (weight_units_after_set_units Sample.CONTENTS_VALUES
              Sample.NON_DELIVERY_OPTIONS Sample.WEIGHT_UNIT_OPTIONS
              Sample.now (VStr "ounces") (VInt 3))
    as (weight & Hnew & _ & _ & Hset).
  destruct (Hset eq_refl) as (weight' & Hw' & Hd).
  exists weight, weight'. repeat split; assumption.
Defined.

Lemma isinstance_weight (weight : value) :
  isinstance weight (TEntity ShipStationWeight) = true ->
  exists slots dict, weight = VObj ShipStationWeight slots dict.
Proof.
  destruct weight; try discriminate. destruct c; try discriminate. eauto.
Qed.

(** X9: a container or an item can be turned into its wire object as long
    as it has no weight; once [set_weight] has been given a weight,
    [as_dict] and [json] raise [NameError]. *)
Theorem weighted_entity_as_dict_raises
  (CONTENTS_VALUES NON_DELIVERY_OPTIONS : list string) (now : string)
  (c : cls) (kwargs : attrs) (entity weight : value) :
  c = ShipStationContainer \/ c = ShipStationItem ->
  new CONTENTS_VALUES NON_DELIVERY_OPTIONS now c kwargs = Ok entity ->
  isinstance weight (TEntity ShipStationWeight) = true ->
  (exists d, as_dict entity = Ok (VDict d)) /\
  (exists entity',
     set_weight weight entity = (entity', Ok tt) /\
     getattr entity' "weight" = Ok weight /\
     as_dict entity' = Raise NameError /\
     json entity' = Raise NameError).
Proof.
  intros Hc Hnew Hw.
  destruct (isinstance_weight weight Hw) as (slots & dict & ->).
  unfold new in Hnew.
  destruct Hc as [-> | ->]; (destruct (forallb _ _); [|discriminate]);
    cbn in Hnew; inversion Hnew; subst entity;
    (split; [eexists; reflexivity|]);
    eexists; repeat split; reflexivity.
Qed.

Lemma weighted_entity_as_dict_raises_witness :
  exists item item' weight,
    Sample.new ShipStationItem [("sku", VStr "A-1"); ("quantity", VInt 2)]
    = Ok item /\
    Sample.new ShipStationWeight [("units", VStr "ounces"); ("value", VInt 3)]
    = Ok weight /\
    set_weight weight item = (item', Ok tt) /\
    as_dict item' = Raise NameError.
Proof.
  destruct (weighted_entity_as_dict_raises Sample.CONTENTS_VALUES
              Sample.NON_DELIVERY_OPTIONS Sample.now ShipStationItem
              [("sku", VStr "A-1"); ("quantity", VInt 2)]
              (VObj ShipStationItem []
                 [("key", VNone); ("sku", VStr "A-1"); ("name", VNone);
                  ("image_url", VNone); ("weight", VNone);
                  ("quantity", VInt 2); ("unit_price", VNone);
                  ("warehouse_location", VNone); ("options", VNone)])
              (VObj ShipStationWeight
                 [("units", VStr "ounces"); ("value", VInt 3);
                  ("WeightUnits", VNone)] [])
              (or_intror eq_refl) eq_refl eq_refl)
    as (_ & item' & Hset & _ & Hd & _).
  eexists. exists item'. eexists.
  split; [reflexivity|]. split; [reflexivity|]. split; [exact Hset|exact Hd].
Defined.

(* ===================================================================== *)
(** * Orders that cannot be serialized                                    *)
(* ===================================================================== *)

Lemma raises_bind {A B : Type} (m : outcome A) (k : A -> outcome B) :
  (forall a, m = Ok a -> raises (k a)) -> raises (bind m k).
Proof.
  unfold raises. destruct m as [a|e]; cbn; intros H; [now apply H|eauto].
Qed.

Lemma raises_Raise {A : Type} (e : exn) : raises (@Raise A e).
Proof. unfold raises. eauto. Qed.

Lemma bind_Ok_inv {A B : Type} (m : outcome A) (k : A -> outcome B) (b : B) :
  bind m k = Ok b -> exists a, m = Ok a /\ k a = Ok b.
Proof. destruct m as [a|e]; cbn; [eauto|discriminate]. Qed.

(** The body of [ShipStationOrder.as_dict], one level of calls deep. *)
Lemma as_dict_upto_order (fuel : nat) (slots dict : attrs) :
  let self := VObj ShipStationOrder slots dict in
  let as_dict_or_none x :=
    if truthy x then as_dict_upto fuel x else Ok VNone in
  as_dict_upto (S fuel) self
  = (d <- base_as_dict self ;;
     items <- getattr self "items" ;;
     x <- (xs <- iterate items ;;
           ds <- comprehension (as_dict_upto fuel) xs ;; Ok (VList ds)) ;;
     d <- setitem d "items" x ;;
     dimensions <- getattr self "dimensions" ;;
     x <- as_dict_or_none dimensions ;;
     d <- setitem d "dimensions" x ;;
     bill_to <- getattr self "bill_to" ;;
     x <- as_dict_or_none bill_to ;;
     d <- setitem d "billTo" x ;;
     ship_to <- getattr self "ship_to" ;;
     x <- as_dict_or_none ship_to ;;
     d <- setitem d "shipTo" x ;;
     x <- get_weight self ;;
     d <- setitem d "weight" x ;;
     international_options <- getattr self "international_options" ;;
     x <- as_dict_or_none international_options ;;
     setitem d "internationalOptions" x).
Proof. reflexivity. Qed.

(** The body of [ShipStationItem.as_dict]. *)
Lemma as_dict_upto_item (fuel : nat) (slots dict : attrs) :
  let self := VObj ShipStationItem slots dict in
  as_dict_upto (S fuel) self
  = (d <- base_as_dict self ;;
     weight <- getattr self "weight" ;;
     if truthy weight then Raise NameError else Ok d).
Proof. reflexivity. Qed.

Lemma getattr_falsy_raises (w : value) (name : string) :
  truthy w = false -> getattr w name = Raise AttributeError.
Proof. destruct w; cbn; intros H; try reflexivity; discriminate H. Qed.

Lemma isinstance_item (item : value) :
  isinstance item (TEntity ShipStationItem) = true ->
  exists slots dict, item = VObj ShipStationItem slots dict.
Proof.
  destruct item; try discriminate. destruct c; try discriminate. eauto.
Qed.

Lemma order_with_item_raises (fuel : nat) (slots dict : attrs)
  (item : value) (rest : list value) :
  getattr (VObj ShipStationOrder slots dict) "items" = Ok (VList (item :: rest)) ->
  isinstance item (TEntity ShipStationItem) = true ->
  raises (as_dict_upto fuel (VObj ShipStationOrder slots dict)).
Proof.
  intros Hitems Hitem.
  destruct (isinstance_item item Hitem) as (islots & idict & ->).
  destruct fuel as [|fuel]; [apply raises_Raise|].
  rewrite as_dict_upto_order. cbv zeta.
  apply raises_bind; intros d0 _.
  rewrite Hitems. cbn [bind iterate comprehension].
  apply raises_bind; intros x Hx.
  apply bind_Ok_inv in Hx as (ds & Hds & _).
  apply bind_Ok_inv in Hds as (b & Hb & _).
  destruct fuel as [|fuel]; [discriminate Hb|].
  rewrite as_dict_upto_item in Hb. cbv zeta in Hb.
  apply bind_Ok_inv in Hb as (d1 & _ & Hb).
  apply bind_Ok_inv in Hb as (w & Hw & Hb).
  destruct (truthy w) eqn:Hfalsy; [discriminate Hb|].
  repeat match goal with
         | |- raises (bind ?m _) =>
             lazymatch m with
             | get_weight _ => fail
             | _ => apply raises_bind; intros ? _
             end
         end.
  assert (Hgw : raises (get_weight (VObj ShipStationOrder slots dict))).
  { unfold get_weight. rewrite Hitems. cbn [bind iterate comprehension].
    rewrite Hw. cbn [bind]. rewrite (getattr_falsy_raises w "value" Hfalsy).
    apply raises_Raise. }
  destruct Hgw as [e ->]. apply raises_Raise.
Qed.

(** X10: an order whose first item is a [ShipStationItem] cannot be turned
    into its wire object: [as_dict] and [json] raise.  (With a weight the
    item raises [NameError] in its own [as_dict]; without one [get_weight]
    has nothing to read the value from.) *)
Theorem order_with_item_cannot_be_serialized
  (slots dict : attrs) (item : value) (rest : list value) :
  getattr (VObj ShipStationOrder slots dict) "items" = Ok (VList (item :: rest)) ->
  isinstance item (TEntity ShipStationItem) = true ->
  raises (as_dict (VObj ShipStationOrder slots dict)) /\
  raises (json (VObj ShipStationOrder slots dict)).
Proof.
  intros Hitems Hitem.
  assert (H : raises (as_dict (VObj ShipStationOrder slots dict)))
    by (apply order_with_item_raises with item rest; assumption).
  split; [exact H|]. unfold json. destruct H as [e ->]. apply raises_Raise.
Qed.

Lemma order_with_item_cannot_be_serialized_witness :
  exists order, Sample.scenario_order = Ok order /\ raises (as_dict order).
Proof.
  eexists. split; [vm_compute; reflexivity|].
  eapply order_with_item_cannot_be_serialized; reflexivity.
Defined.

(* ===================================================================== *)
(** * Orders and decimals                                                 *)
(* ===================================================================== *)

Lemma raises_bind_l {A B : Type} (m : outcome A) (k : A -> outcome B) :
  raises m -> raises (bind m k).
Proof. intros [e ->]. cbn. unfold raises. eauto. Qed.

Lemma slots_comprehension (self : value) (names : list string) (items : attrs) :
  comprehension (fun key => x <- getattr self key ;; Ok (key, x)) names
  = Ok items ->
  items = map (fun key => (key, match getattr self key with
                                | Ok x => x
                                | Raise _ => VNone
                                end)) names.
Proof.
  revert items. induction names as [|key names IH]; intros items; cbn.
  - intros H. now inversion H.
  - destruct (getattr self key) as [x|e]; cbn; [|discriminate].
    destruct (comprehension _ names) as [rest|e]; cbn; [|discriminate].
    intros H. inversion H. f_equal. now apply IH.
Qed.

Lemma setitem_keeps (d d' : value) (key k : string) (x v : value) :
  key <> k ->
  getitem d k = Ok v -> setitem d key x = Ok d' -> getitem d' k = Ok v.
Proof.
  intros Hne. destruct d; cbn; try discriminate.
  intros Hg Hs. inversion Hs. subst d'. cbn.
  rewrite Alist.get_set_neq by congruence. exact Hg.
Qed.

(** [json.dumps] raises on a dictionary that holds a [Decimal]. *)
Lemma json_dumps_decimal (d : value) (k : string) (dec : decimal) :
  getitem d k = Ok (VDecimal dec) -> raises (json_dumps d).
Proof.
  destruct d as [| | | | |l|dd| | |]; cbn [getitem]; try discriminate.
  intros H. cbn [json_dumps]. apply raises_bind_l.
  induction dd as [|[k' x] dd IH]; cbn in H; [discriminate|].
  destruct (String.eqb k k').
  - inversion H. subst x. cbn. apply raises_Raise.
  - destruct (alist_get k dd) as [v|] eqn:E; [|discriminate].
    apply raises_bind; intros p _. apply raises_bind_l. apply IH. exact H.
Qed.

(** The wire object of an order without [__dict__] holds, under
    [amountPaid], what the slot [amount_paid] holds. *)
Lemma order_base_as_dict_amount (slots : attrs) (d x : value) :
  getattr (VObj ShipStationOrder slots []) "amount_paid" = Ok x ->
  base_as_dict (VObj ShipStationOrder slots []) = Ok d ->
  getitem d "amountPaid" = Ok x.
Proof.
  intros Hx Hd. unfold base_as_dict in Hd. cbn [slots_of] in Hd.
  apply bind_Ok_inv in Hd as (items & Hitems & Hd).
  apply slots_comprehension in Hitems. inversion Hd. subst d. clear Hd.
  subst items. cbn [map].
  rewrite Hx.
  repeat match goal with
         | |- context [getattr ?o ?n] =>
             let v := fresh "v" in
             generalize (getattr o n); intros v
         end.
  reflexivity.
Qed.

Lemma order_as_dict_amount (fuel : nat) (slots : attrs) (r x : value) :
  getattr (VObj ShipStationOrder slots []) "amount_paid" = Ok x ->
  as_dict_upto fuel (VObj ShipStationOrder slots []) = Ok r ->
  getitem r "amountPaid" = Ok x.
Proof.
  intros Hx Hr. destruct fuel as [|fuel]; [discriminate Hr|].
  rewrite as_dict_upto_order in Hr. cbv zeta in Hr.
  apply bind_Ok_inv in Hr as (d & Hd & Hr).
  pose proof (order_base_as_dict_amount slots d x Hx Hd) as Hg. clear Hd.
  repeat match type of Hr with
         | bind (setitem ?d0 ?key ?y) _ = Ok _ =>
             let d' := fresh "d" in
             let Hs := fresh "Hs" in
             apply bind_Ok_inv in Hr as (d' & Hs & Hr);
             apply (setitem_keeps d0 d' key "amountPaid" y x) in Hs;
             [clear Hg; rename Hs into Hg | discriminate | exact Hg]
         | bind _ _ = Ok _ =>
             apply bind_Ok_inv in Hr as (? & _ & Hr)
         end.
  eapply setitem_keeps; [|exact Hg|exact Hr]. discriminate.
Qed.

(** X11: an order without [__dict__] whose [amount_paid] is a [Decimal],
    as every order made by the constructor is, cannot be serialized:
    [json] raises, and [submit_orders] raises on it before it has issued
    any request. *)
Theorem order_with_decimal_amount_is_not_submitted
  (http : request -> outcome value) (self : client)
  (slots : attrs) (dec : decimal) (others : list value) (w : wire) :
  let order := VObj ShipStationOrder slots [] in
  getattr order "amount_paid" = Ok (VDecimal dec) ->
  orders self = order :: others ->
  raises (json order) /\
  exists e, Api.submit_orders http self w = (w, Raise e).
Proof.
  intros order Hamount Horders.
  assert (Hdumps : raises (d <- as_dict order ;; json_dumps d)).
  { apply raises_bind. intros d Hd.
    apply json_dumps_decimal with "amountPaid" dec.
    eapply order_as_dict_amount; [exact Hamount|exact Hd]. }
  split; [exact Hdumps|].
  unfold Api.submit_orders. rewrite Horders. cbn [fold_left].
  destruct Hdumps as [e He]. exists e.
  assert (Hfirst :
    (_ <~~ io_ret tt ;;
     data <~~ io_lift (d <- as_dict order ;;
                       text <- json_dumps d ;; Ok (VStr text)) ;;
     _ <~~ Api.post http self "/orders/createorder" data ;; io_ret tt) w
    = (w, Raise e)).
  { unfold io_bind, io_ret, io_lift.
    destruct (as_dict order) as [d|e']; cbn in *; [|congruence].
    rewrite He. reflexivity. }
  clear Horders. revert Hfirst. generalize (_ <~~ io_ret tt ;;
     data <~~ io_lift (d <- as_dict order ;;
                       text <- json_dumps d ;; Ok (VStr text)) ;;
     _ <~~ Api.post http self "/orders/createorder" data ;; io_ret tt).
  induction others as [|o others IH]; intros acc Hacc; [exact Hacc|].
  cbn [fold_left]. apply IH. unfold io_bind. now rewrite Hacc.
Qed.

Lemma order_with_decimal_amount_is_not_submitted_witness :
  exists order e,
    Sample.new ShipStationOrder [("order_number", VStr "1001")] = Ok order /\
    Api.submit_orders Sample.http (set_orders Sample.ss [order]) []
    = ([], Raise e).
Proof.
  pose (slots := match Sample.new ShipStationOrder
                         [("order_number", VStr "1001")] with
                 | Ok (VObj _ s _) => s
                 | _ => []
                 end).
  destruct (order_with_decimal_amount_is_not_submitted Sample.http
              (set_orders Sample.ss [VObj ShipStationOrder slots []])
              slots (Dec 0 0) [] [] eq_refl eq_refl) as [_ [e He]].
  exists (VObj ShipStationOrder slots []), e.
  split; [reflexivity|exact He].
Defined.

(* ===================================================================== *)
(** * Setters and what they keep                                          *)
(* ===================================================================== *)

Lemma getattr_setattr (c : cls) (slots dict : attrs) (n m : string) (v : value) :
  getattr (setattr (VObj c slots dict) n v) m
  = if String.eqb m n then Ok v else getattr (VObj c slots dict) m.
Proof.
  unfold setattr, getattr.
  destruct (String.eqb m n) eqn:E.
  - apply String.eqb_eq in E. subst m.
    destruct (is_slot c n) eqn:Hs; rewrite Hs, Alist.get_set_eq; reflexivity.
  - apply String.eqb_neq in E.
    destruct (is_slot c n) eqn:Hn; destruct (is_slot c m) eqn:Hm;
      rewrite ?Hm; try reflexivity;
      rewrite Alist.get_set_neq by exact E; reflexivity.
Qed.

(** X12: [set_status] keeps the status of an order unset or allowed,
    whatever it is given: after a call that returns the status is [None]
    or a member of [ORDER_STATUS_VALUES], and a call that raises leaves
    it as it was. *)
Theorem set_status_keeps_status_valid
  (ORDER_STATUS_VALUES : list string) (c : cls) (slots dict : attrs)
  (status : value) :
  let order := VObj c slots dict in
  let after := fst (set_status ORDER_STATUS_VALUES status order) in
  (snd (set_status ORDER_STATUS_VALUES status order) = Ok tt ->
   status_valid ORDER_STATUS_VALUES after) /\
  (status_valid ORDER_STATUS_VALUES order ->
   status_valid ORDER_STATUS_VALUES after).
Proof.
  intros order after. subst after. unfold set_status, status_valid.
  destruct (truthy status) eqn:Ht; cbn [negb].
  - destruct (value_in status ORDER_STATUS_VALUES) eqn:Hin; cbn [negb].
    + assert (H : exists s,
                 getattr (setattr order "order_status" status) "order_status"
                 = Ok s /\ (s = VNone \/ value_in s ORDER_STATUS_VALUES = true)).
      { exists status. subst order. rewrite getattr_setattr. cbn. auto. }
      split; intros _; exact H.
    + split; [discriminate|]. intros H. exact H.
  - assert (H : exists s,
               getattr (setattr order "order_status" VNone) "order_status"
               = Ok s /\ (s = VNone \/ value_in s ORDER_STATUS_VALUES = true)).
    { exists VNone. subst order. rewrite getattr_setattr. cbn. auto. }
    split; intros _; exact H.
Qed.

Lemma set_status_keeps_status_valid_witness :
  status_valid Sample.ORDER_STATUS_VALUES
    (fst (set_status Sample.ORDER_STATUS_VALUES (VStr "delivered")
            (VObj ShipStationOrder [("order_status", VStr "on_hold")] []))).
Proof.
  apply (proj2 (set_status_keeps_status_valid Sample.ORDER_STATUS_VALUES
                  ShipStationOrder [("order_status", VStr "on_hold")] []
                  (VStr "delivered"))).
  exists (VStr "on_hold"). split; [reflexivity|right; reflexivity].
Defined.

(** X13: the constructor of the international options raises exactly when
    [contents] or [non_delivery] is truthy and outside its tuple; a falsy
    argument, [None] or not, is stored as [None], and the list of customs
    items starts empty. *)
Theorem international_options_construction
  (CONTENTS_VALUES NON_DELIVERY_OPTIONS : list string) (now : string)
  (contents non_delivery : value) :
  let construct :=
    new CONTENTS_VALUES NON_DELIVERY_OPTIONS now
        ShipStationInternationalOptions
        [("contents", contents); ("non_delivery", non_delivery)] in
  let rejected :=
    (truthy contents && negb (value_in contents CONTENTS_VALUES))
    || (truthy non_delivery && negb (value_in non_delivery NON_DELIVERY_OPTIONS)) in
  construct
  = if rejected then Raise AttributeError
    else Ok (VObj ShipStationInternationalOptions []
               [("customs_items", VList []);
                ("contents", or_none contents);
                ("non_delivery", or_none non_delivery)]).
Proof.
  unfold new, or_none. cbn.
  unfold set_contents, set_non_delivery, abind, assign, throw.
  destruct (truthy contents); cbn;
    [destruct (value_in contents CONTENTS_VALUES); cbn; [|reflexivity]|];
    (destruct (truthy non_delivery); cbn;
     [destruct (value_in non_delivery NON_DELIVERY_OPTIONS); cbn|]);
    reflexivity.
Qed.

(* ===================================================================== *)
(** * What [from_json] sets                                               *)
(* ===================================================================== *)





(** X16: a warehouse whose addresses are [None] or addresses made by the
    constructor goes to the wire and back unchanged: [as_dict] turns the
    addresses into wire objects and [from_json] parses them into addresses
    again. *)
Theorem warehouse_round_trip
  (CONTENTS_VALUES NON_DELIVERY_OPTIONS : list string) (now : string)
  (json_loads : string -> outcome value)
  (create_date ext_inventory_identity is_default origin_address return_address
   register_fedex_meter seller_integration_id warehouse_id warehouse_name
   : value) :
  address_or_none origin_address ->
  address_or_none return_address ->
  let warehouse :=
    instance ShipStationWarehouse
      [create_date; ext_inventory_identity; is_default; origin_address;
       return_address; register_fedex_meter; seller_integration_id;
       warehouse_id; warehouse_name] in
  (d <- as_dict warehouse ;;
   parse CONTENTS_VALUES NON_DELIVERY_OPTIONS now json_loads
         ShipStationWarehouse d)
  = Ok warehouse.
Proof.
  intros [->|(ovals & Holen & ->)] [->|(rvals & Hrlen & ->)];
    try exact_length ovals Holen; try exact_length rvals Hrlen;
    reflexivity.
Qed.

Lemma warehouse_round_trip_witness :
  let address :=
    instance ShipStationAddress
      [VStr "Ann"; VNone; VStr "1 Main St"; VNone; VNone; VStr "Austin";
       VStr "TX"; VStr "78701"; VStr "US"; VNone; VBool true] in
  let warehouse :=
    instance ShipStationWarehouse
      [VNone; VNone; VBool true; address; VNone; VNone; VNone; VInt 7;
       VStr "Main"] in
  (d <- as_dict warehouse ;;
   parse Sample.CONTENTS_VALUES Sample.NON_DELIVERY_OPTIONS Sample.now
         Sample.json_loads ShipStationWarehouse d)
  = Ok warehouse.
Proof.
  intros address warehouse.
  apply (warehouse_round_trip Sample.CONTENTS_VALUES
           Sample.NON_DELIVERY_OPTIONS Sample.now Sample.json_loads).
  - right. eexists. split; [|reflexivity]. reflexivity.
  - left. reflexivity.
Defined.

(* ===================================================================== *)
(** * [json] on flat entities                                             *)
(* ===================================================================== *)




Lemma Forall_renamed_scalar (f : string -> string) (d : attrs) :
  Forall (fun kv => scalar (snd kv) = true) d ->
  Forall (fun kv => scalar (snd kv) = true) (renamed f d).
Proof. induction 1; constructor; auto. Qed.




(* ===================================================================== *)
(** * Weights of orders that grow                                         *)
(* ===================================================================== *)

Lemma get_weight_integers (self : value) (items : list value)
  (data : list (Z * Z)) (dimensions : value) (c : Z) :
  getattr self "items" = Ok (VList items) ->
  Forall2 (fun item wq => weighs item (fst wq) (snd wq)) items data ->
  getattr self "dimensions" = Ok dimensions ->
  container_adds dimensions c ->
  get_weight self
  = Ok (VDict [("units", VStr "ounces");
               ("value", VInt (total_weight data + c))]).
Proof.
  intros Hitems Hdata Hdim Hc.
  unfold get_weight. rewrite Hitems. cbn [bind iterate].
  rewrite (products_of_items _ _ Hdata). cbn [bind].
  unfold py_sum. rewrite py_sum_from, total_weight_products. cbn [bind].
  rewrite Hdim. cbn [bind].
  destruct Hc as [[Hf ->]|[Ht (weight & Hw & [[Hf ->]|[Hwt Hv]])]].
  - rewrite Hf. cbn. now rewrite Z.add_0_r.
  - rewrite Ht, Hw. cbn [bind]. rewrite Hf. cbn. now rewrite Z.add_0_r.
  - rewrite Ht, Hw. cbn [bind]. rewrite Hwt, Hv. reflexivity.
Qed.

Lemma total_weight_app (data : list (Z * Z)) (w q : Z) :
  total_weight (data ++ [(w, q)]) = (total_weight data + w * q)%Z.
Proof.
  induction data as [|wq data IH]; cbn; [lia|].
  unfold total_weight in IH. rewrite IH. lia.
Qed.

(** X18: [add_item] never raises on an order whose [items] is a list and
    checks nothing about the item; when the items weigh in integers, the
    item added raises the weight [get_weight] reports by its value times
    its quantity. *)
Theorem add_item_adds_to_weight
  (c0 : cls) (slots dict : attrs) (items : list value) (data : list (Z * Z))
  (dimensions item : value) (c w q : Z) :
  let order := VObj c0 slots dict in
  getattr order "items" = Ok (VList items) ->
  Forall2 (fun item wq => weighs item (fst wq) (snd wq)) items data ->
  getattr order "dimensions" = Ok dimensions ->
  container_adds dimensions c ->
  weighs item w q ->
  exists order',
    add_item item order = (order', Ok tt) /\
    getattr order' "items" = Ok (VList (items ++ [item])) /\
    get_weight order
    = Ok (VDict [("units", VStr "ounces");
                 ("value", VInt (total_weight data + c))]) /\
    get_weight order'
    = Ok (VDict [("units", VStr "ounces");
                 ("value", VInt (total_weight data + w * q + c))]).
Proof.
  intros order Hitems Hdata Hdim Hc Hitem.
  exists (setattr order "items" (VList (items ++ [item]))).
  assert (Hitems' : getattr (setattr order "items" (VList (items ++ [item])))
                            "items" = Ok (VList (items ++ [item])))
    by (subst order; rewrite getattr_setattr; reflexivity).
  split; [|split; [exact Hitems'|split]].
  - unfold add_item, abind, read, assign. now rewrite Hitems.
  - now apply get_weight_integers with items dimensions.
  - rewrite <- total_weight_app.
    apply get_weight_integers with (items ++ [item])%list dimensions.
    + exact Hitems'.
    + apply Forall2_app; [exact Hdata|]. constructor; [exact Hitem|constructor].
    + subst order. rewrite getattr_setattr. exact Hdim.
    + exact Hc.
Qed.

Lemma add_item_adds_to_weight_witness :
  exists order order',
    Sample.scenario_order = Ok order /\
    add_item (VObj ShipStationItem []
                [("weight", VObj ShipStationWeight [("value", VInt 5)] []);
                 ("quantity", VInt 4)]) order = (order', Ok tt) /\
    get_weight order'
    = Ok (VDict [("units", VStr "ounces"); ("value", VInt 26)]).
Proof.
  pose (slots := match Sample.scenario_order with
                 | Ok (VObj _ s _) => s
                 | _ => []
                 end).
  destruct (add_item_adds_to_weight ShipStationOrder slots []
              (match alist_get "items" slots with
               | Some (VList l) => l
               | _ => []
               end)
              [(3, 2)%Z] VNone
              (VObj ShipStationItem []
                 [("weight", VObj ShipStationWeight [("value", VInt 5)] []);
                  ("quantity", VInt 4)]) 0 5 4)
    as (order' & Hadd & _ & _ & Hw).
  - reflexivity.
  - constructor; [|constructor].
    eexists. split; [reflexivity|]. split; reflexivity.
  - reflexivity.
  - left. split; reflexivity.
  - eexists. split; [reflexivity|]. split; reflexivity.
  - exists (VObj ShipStationOrder slots []), order'.
    split; [reflexivity|]. split; [exact Hadd|exact Hw].
Defined.

(* ===================================================================== *)
(** * Further properties of the facade                                    *)
(* ===================================================================== *)

Lemma dict_get_opt (d : attrs) (key : string) :
  dict_get (VDict d) key = Ok (opt d key).
Proof. unfold dict_get, opt. now destruct (alist_get key d). Qed.

Lemma require_type_is_ok (x : value) (t : pytype) :
  require_type x t = if is_ok (require_type x t) then Ok tt
                     else Raise AttributeError.
Proof.
  unfold require_type. destruct x; try reflexivity;
    destruct (isinstance _ t); reflexivity.
Qed.

Lemma require_options_spec (d : attrs) (required : list string) :
  require_options (VDict d) required
  = if forallb (fun r => truthy (opt d r)) required then Ok tt
    else Raise AttributeError.
Proof.
  induction required as [|r required IH]; [reflexivity|].
  cbn [require_options forallb]. rewrite dict_get_opt. cbn [bind].
  destruct (truthy (opt d r)); cbn; [exact IH|reflexivity].
Qed.

(** X19: [get_rates] given a dictionary issues its request exactly when
    [weight] and [dimensions] are absent or of their types and every
    option of [REQUIRED_RATE_OPTIONS] is present and truthy; otherwise it
    raises [AttributeError] and nothing is sent.  No key is rejected, and
    the body is the dictionary with its keys renamed, its values as they
    are. *)
Theorem get_rates_sends_iff
  (GET_RATE_OPTIONS REQUIRED_RATE_OPTIONS : list string)
  (http : request -> outcome value) (self : client) (d : attrs) (w : wire) :
  let accepted :=
    is_ok (require_type (opt d "weight") (TEntity ShipStationWeight))
    && is_ok (require_type (opt d "dimensions") (TEntity ShipStationContainer))
    && forallb (fun r => truthy (opt d r)) REQUIRED_RATE_OPTIONS in
  Api.get_rates GET_RATE_OPTIONS REQUIRED_RATE_OPTIONS http self (VDict d) w
  = if accepted
    then Api.post http self "/shipments/getrates"
           (VDict (dict_comprehension to_camel_case d)) w
    else (w, Raise AttributeError).
Proof.
  unfold Api.get_rates, io_bind, io_lift.
  rewrite !dict_get_opt. cbn [bind].
  rewrite (require_type_is_ok (opt d "weight")).
  destruct (is_ok (require_type (opt d "weight") _)); cbn; [|reflexivity].
  rewrite (require_type_is_ok (opt d "dimensions")).
  destruct (is_ok (require_type (opt d "dimensions") _)); cbn; [|reflexivity].
  rewrite require_options_spec.
  destruct (forallb _ REQUIRED_RATE_OPTIONS); reflexivity.
Qed.

(** X20: [subscribe_to_webhook] given a dictionary looks at its [event]
    only: it issues its request when the names [target_url] and [event]
    are in [SUBSCRIBE_TO_WEBHOOK_OPTIONS], the event is in
    [SUBSCRIBE_TO_WEBHOOK_EVENT_OPTIONS] and the dictionary can be
    serialized; the body is the JSON text of the dictionary with its keys
    as given, and no key, [target_url] included, is required of it. *)
Theorem subscribe_to_webhook_sends_iff
  (SUBSCRIBE_TO_WEBHOOK_OPTIONS SUBSCRIBE_TO_WEBHOOK_EVENT_OPTIONS : list string)
  (http : request -> outcome value) (self : client) (d : attrs) (w : wire) :
  let accepted :=
    str_in "target_url" SUBSCRIBE_TO_WEBHOOK_OPTIONS
    && str_in "event" SUBSCRIBE_TO_WEBHOOK_OPTIONS
    && value_in (opt d "event") SUBSCRIBE_TO_WEBHOOK_EVENT_OPTIONS in
  Api.subscribe_to_webhook SUBSCRIBE_TO_WEBHOOK_OPTIONS
    SUBSCRIBE_TO_WEBHOOK_EVENT_OPTIONS http self (VDict d) w
  = if accepted
    then match json_dumps (VDict d) with
         | Ok text => Api.post http self "/webhooks/subscribe" (VStr text) w
         | Raise e => (w, Raise e)
         end
    else (w, Raise AttributeError).
Proof.
  unfold Api.subscribe_to_webhook, io_bind, io_lift, require_membership.
  cbn [value_in]. rewrite dict_get_opt.
  destruct (str_in "target_url" _); cbn [bind andb]; [|reflexivity].
  destruct (str_in "event" _); cbn [bind andb]; [|reflexivity].
  destruct (value_in (opt d "event") _); cbn [bind]; [|reflexivity].
  destruct (json_dumps (VDict d)); reflexivity.
Qed.

(** X21: [fetch_orders] of either variant, given anything that is not a
    dictionary ([None] included), raises [AttributeError], and the
    synchronous variant has then issued no request. *)
Theorem fetch_orders_rejects_non_dict
  (ORDER_LIST_PARAMETERS : list string) (http : request -> outcome value)
  (self : client) (parameters : value) (w : wire) :
  isinstance parameters TDict = false ->
  Api.fetch_orders ORDER_LIST_PARAMETERS http self parameters w
  = (w, Raise AttributeError) /\
  Aio.fetch_orders ORDER_LIST_PARAMETERS http self parameters
  = Raise AttributeError.
Proof.
  intros H. unfold Api.fetch_orders, Aio.fetch_orders, io_bind, io_lift.
  destruct parameters; try discriminate H; split; reflexivity.
Qed.

Lemma fetch_orders_rejects_non_dict_witness :
  Api.fetch_orders Sample.ORDER_LIST_PARAMETERS Sample.http Sample.ss VNone []
  = ([], Raise AttributeError) /\
  Aio.fetch_orders Sample.ORDER_LIST_PARAMETERS Sample.http Sample.ss
    (VList [VStr "page"])
  = Raise AttributeError.
Proof.
  split.
  - apply (fetch_orders_rejects_non_dict Sample.ORDER_LIST_PARAMETERS
             Sample.http Sample.ss VNone []). reflexivity.
  - apply (fetch_orders_rejects_non_dict Sample.ORDER_LIST_PARAMETERS
             Sample.http Sample.ss (VList [VStr "page"]) []). reflexivity.
Defined.


(** X26: [list_stores] puts [showInactive] among the query parameters only
    when it is [True] and [marketplaceId] only when it is a non-zero
    integer; an argument of another type raises [AttributeError] and
    nothing is sent. *)
Theorem list_stores_parameters
  (http : request -> outcome value) (self : client)
  (show_inactive marketplace_id : value) (w : wire) :
  let accepted :=
    is_ok (require_type show_inactive TBool)
    && is_ok (require_type marketplace_id TInt) in
  let parameters : attrs :=
    ((if truthy show_inactive then [("showInactive", show_inactive)] else [])
     ++ (if truthy marketplace_id then [("marketplaceId", marketplace_id)]
         else []))%list in
  Api.list_stores http self show_inactive marketplace_id w
  = if accepted
    then Api.get http self "/stores" (VDict parameters) w
    else (w, Raise AttributeError).
Proof.
  unfold Api.list_stores, io_bind, io_lift.
  rewrite (require_type_is_ok show_inactive).
  destruct (is_ok (require_type show_inactive _)); cbn; [|reflexivity].
  rewrite (require_type_is_ok marketplace_id).
  destruct (is_ok (require_type marketplace_id _)); cbn; [|reflexivity].
  destruct (truthy show_inactive), (truthy marketplace_id); reflexivity.
Qed.

Lemma submit_step_good (http : request -> outcome value) (self : client)
  (acc : io unit) (order : value) (text : string) (w w1 : wire) :
  debug self = false ->
  (forall req, exists r, http req = Ok r) ->
  acc w = (w1, Ok tt) ->
  order_text order = Ok text ->
  (_ <~~ acc ;;
   data <~~ io_lift (d <- as_dict order ;;
                     text <- json_dumps d ;; Ok (VStr text)) ;;
   _ <~~ Api.post http self "/orders/createorder" data ;; io_ret tt) w
  = ((w1 ++ [createorder self text])%list, Ok tt).
Proof.
  intros Hdebug Hhttp Hacc Htext.
  unfold io_bind, io_lift, io_ret. rewrite Hacc.
  unfold order_text in Htext.
  destruct (as_dict order) as [d|e]; cbn in Htext |- *; [|discriminate].
  rewrite Htext. cbn. unfold Api.post, send. rewrite Hdebug. cbn.
  destruct (Hhttp (Request POST (url self ++ "/orders/createorder")
                     (key self, secret self) VNone (VStr text) json_headers))
    as (r & ->).
  reflexivity.
Qed.

Lemma submit_step_bad (http : request -> outcome value) (self : client)
  (acc : io unit) (order : value) (e : exn) (w w1 : wire) :
  acc w = (w1, Ok tt) ->
  order_text order = Raise e ->
  (_ <~~ acc ;;
   data <~~ io_lift (d <- as_dict order ;;
                     text <- json_dumps d ;; Ok (VStr text)) ;;
   _ <~~ Api.post http self "/orders/createorder" data ;; io_ret tt) w
  = (w1, Raise e).
Proof.
  intros Hacc Htext. unfold io_bind, io_lift, io_ret. rewrite Hacc.
  unfold order_text in Htext.
  destruct (as_dict order) as [d|e']; cbn in Htext |- *; [|congruence].
  now rewrite Htext.
Qed.

Lemma submit_fold_raised (http : request -> outcome value) (self : client)
  (orders : list value) (e : exn) (w w1 : wire) :
  forall acc : io unit,
  acc w = (w1, Raise e) ->
  fold_left
    (fun (acc : io unit) order =>
       _ <~~ acc ;;
       data <~~ io_lift (d <- as_dict order ;;
                         text <- json_dumps d ;; Ok (VStr text)) ;;
       _ <~~ Api.post http self "/orders/createorder" data ;; io_ret tt)
    orders acc w
  = (w1, Raise e).
Proof.
  induction orders as [|o orders IH]; intros acc Hacc; [exact Hacc|].
  cbn [fold_left]. apply IH. unfold io_bind. now rewrite Hacc.
Qed.

Lemma submit_fold_good (http : request -> outcome value) (self : client)
  (good : list value) (texts : list string) (later : list value) (w : wire) :
  debug self = false ->
  (forall req, exists r, http req = Ok r) ->
  Forall2 (fun order text => order_text order = Ok text) good texts ->
  forall (acc : io unit) (w1 : wire),
  acc w = (w1, Ok tt) ->
  exists acc' : io unit,
    acc' w = ((w1 ++ map (createorder self) texts)%list, Ok tt) /\
    fold_left
      (fun (acc : io unit) order =>
         _ <~~ acc ;;
         data <~~ io_lift (d <- as_dict order ;;
                           text <- json_dumps d ;; Ok (VStr text)) ;;
         _ <~~ Api.post http self "/orders/createorder" data ;; io_ret tt)
      (good ++ later) acc
    = fold_left
        (fun (acc : io unit) order =>
           _ <~~ acc ;;
           data <~~ io_lift (d <- as_dict order ;;
                             text <- json_dumps d ;; Ok (VStr text)) ;;
           _ <~~ Api.post http self "/orders/createorder" data ;; io_ret tt)
        later acc'.
Proof.
  intros Hdebug Hhttp Hgood.
  induction Hgood as [|order text good texts Htext _ IH]; intros acc w1 Hacc.
  - exists acc. cbn. rewrite app_nil_r. auto.
  - cbn [app fold_left map].
    destruct (IH _ (w1 ++ [createorder self text])%list
                (submit_step_good http self acc order text w w1
                   Hdebug Hhttp Hacc Htext))
      as (acc' & Hacc' & Hfold).
    exists acc'. rewrite <- app_assoc in Hacc'. auto.
Qed.

(** X24: [submit_orders] posts the orders of the accumulator in their
    order, each as the JSON text of its wire object, as long as they can
    be serialized: when all can, one request per order has been issued;
    at the first order that cannot, the exception leaves the loop, the
    requests of the orders before it have been issued and none of those
    after it.  (The transport is taken to answer, and [debug] to be
    off.) *)
Theorem submit_orders_posts_in_order
  (http : request -> outcome value) (self : client)
  (good : list value) (texts : list string) (w : wire) :
  debug self = false ->
  (forall req, exists r, http req = Ok r) ->
  Forall2 (fun order text => order_text order = Ok text) good texts ->
  (orders self = good ->
   Api.submit_orders http self w
   = ((w ++ map (createorder self) texts)%list, Ok tt)) /\
  (forall bad later e,
     orders self = (good ++ bad :: later)%list ->
     order_text bad = Raise e ->
     Api.submit_orders http self w
     = ((w ++ map (createorder self) texts)%list, Raise e)).
Proof.
  intros Hdebug Hhttp Hgood. split.
  - intros Horders. unfold Api.submit_orders. rewrite Horders.
    destruct (submit_fold_good http self good texts [] w Hdebug Hhttp Hgood
                (io_ret tt) w eq_refl) as (acc' & Hacc' & Hfold).
    rewrite app_nil_r in Hfold. rewrite Hfold. exact Hacc'.
  - intros bad later e Horders Hbad. unfold Api.submit_orders. rewrite Horders.
    destruct (submit_fold_good http self good texts (bad :: later) w
                Hdebug Hhttp Hgood (io_ret tt) w eq_refl)
      as (acc' & Hacc' & Hfold).
    rewrite Hfold. cbn [fold_left].
    apply submit_fold_raised.
    now apply submit_step_bad.
Qed.

Lemma submit_orders_posts_in_order_witness :
  exists order text,
    order_text order = Ok text /\
    Api.submit_orders Sample.http (set_orders Sample.ss [order]) []
    = ([createorder Sample.ss text], Ok tt).
Proof.
  pose (order :=
          match Sample.new ShipStationOrder [("order_number", VStr "1001")] with
          | Ok o =>
              setattr (setattr (setattr o "amount_paid" (VStr "0"))
                               "tax_amount" (VStr "0"))
                      "shipping_amount" (VStr "0")
          | Raise _ => VNone
          end).
  pose (text := match order_text order with Ok t => t | Raise _ => "" end).
  exists order, text.
  assert (Htext : order_text order = Ok text) by (vm_compute; reflexivity).
  split; [exact Htext|].
  apply (proj1 (submit_orders_posts_in_order Sample.http
                  (set_orders Sample.ss [order]) [order] [text] []
                  eq_refl (fun req => ex_intro _ _ eq_refl)
                  (Forall2_cons _ _ Htext (Forall2_nil _)))).
  reflexivity.
Defined.

(* ===================================================================== *)
(** * Typed setters                                                       *)
(* ===================================================================== *)

(** A setter that checks the type of its argument, then assigns it. *)
Lemma typed_setter (c : cls) (slots dict : attrs) (attr : string)
  (t : pytype) (x : value) :
  let self := VObj c slots dict in
  let call := (lift (require_type x t) >> assign attr x) self in
  (x = VNone \/ isinstance x t = true ->
   call = (setattr self attr x, Ok tt)) /\
  (x <> VNone -> isinstance x t = false ->
   call = (self, Raise AttributeError)) /\
  (typed_attr self attr t -> typed_attr (fst call) attr t).
Proof.
  intros self call. subst call. unfold abind, lift, assign.
  assert (Hok : x = VNone \/ isinstance x t = true ->
                require_type x t = Ok tt).
  { intros [->|H]; [reflexivity|]. unfold require_type.
    destruct x; try reflexivity; now rewrite H. }
  split; [|split].
  - intros H. now rewrite (Hok H).
  - intros Hn Hi. now rewrite (proj2 (require_type_spec x t) (conj Hn Hi)).
  - intros Htyped. destruct (require_type x t) as [[]|e] eqn:E; [|exact Htyped].
    cbn [fst]. exists x. subst self. rewrite getattr_setattr, String.eqb_refl.
    split; [reflexivity|].
    unfold require_type in E. destruct x; auto;
      destruct (isinstance _ t); auto; discriminate E.
Qed.

(** X23: the setters of an order for the shipping address, the billing
    address, the dimensions and the international options accept [None]
    and an instance of their class, which they store, and turn away
    anything else, a bare dictionary included, raising [AttributeError]
    and leaving the order as it was. *)
Theorem order_setters_check_types
  (c : cls) (slots dict : attrs) (x : value) (d : attrs) :
  let order := VObj c slots dict in
  let accepts (setter : value -> action unit) (attr : string) (t : cls) :=
    (x = VNone \/ isinstance x (TEntity t) = true ->
     setter x order = (setattr order attr x, Ok tt)) /\
    (x <> VNone -> isinstance x (TEntity t) = false ->
     setter x order = (order, Raise AttributeError)) /\
    setter (VDict d) order = (order, Raise AttributeError) in
  accepts set_shipping_address "ship_to" ShipStationAddress /\
  accepts set_billing_address "bill_to" ShipStationAddress /\
  accepts set_dimensions "dimensions" ShipStationContainer /\
  accepts set_international_options "international_options"
          ShipStationInternationalOptions.
Proof.
  intros order accepts. subst accepts. cbv beta.
  repeat split;
    first [ apply (typed_setter c slots dict)
          | reflexivity ].
Qed.

Lemma order_setters_check_types_witness :
  exists order address,
    Sample.new ShipStationOrder [] = Ok order /\
    Sample.new ShipStationAddress [("name", VStr "Ann")] = Ok address /\
    fst (set_shipping_address address order)
    = setattr order "ship_to" address /\
    set_dimensions address order = (order, Raise AttributeError).
Proof.
  pose (slots := match Sample.new ShipStationOrder [] with
                 | Ok (VObj _ s _) => s
                 | _ => []
                 end).
  pose (address := instance ShipStationAddress
                     [VStr "Ann"; VNone; VNone; VNone; VNone; VNone; VNone;
                      VNone; VNone; VNone; VNone]).
  destruct (order_setters_check_types ShipStationOrder slots [] address [])
    as ((Hship & _) & _ & (_ & Hdim & _) & _).
  exists (VObj ShipStationOrder slots []), address.
  split; [reflexivity|]. split; [reflexivity|]. split.
  - rewrite Hship; [reflexivity|right; reflexivity].
  - apply Hdim; [discriminate|reflexivity].
Defined.

(** X25: [add_customs_item] keeps the list of customs items a list of
    customs items and [None]s: it appends a customs item, it appends
    [None] as well, and it turns away anything else, leaving the list as
    it was. *)
Theorem add_customs_item_keeps_types
  (c : cls) (slots dict : attrs) (items : list value) (x : value) :
  let options := VObj c slots dict in
  getattr options "customs_items" = Ok (VList items) ->
  customs_items_typed items ->
  exists items',
    getattr (fst (add_customs_item x options)) "customs_items"
    = Ok (VList items') /\
    customs_items_typed items' /\
    (items' = (items ++ [x])%list <->
     x = VNone \/ isinstance x (TEntity ShipStationCustomsItem) = true) /\
    (items' = items <->
     x <> VNone /\ isinstance x (TEntity ShipStationCustomsItem) = false).
Proof.
  intros options Hitems Htyped.
  unfold add_customs_item, abind, lift, read, assign.
  destruct (require_type x (TEntity ShipStationCustomsItem)) as [[]|e] eqn:E.
  - assert (Hx : x = VNone \/
                 isinstance x (TEntity ShipStationCustomsItem) = true).
    { unfold require_type in E. destruct x; auto;
        destruct (isinstance _ _); auto; discriminate E. }
    rewrite Hitems. cbn [fst].
    exists (items ++ [x])%list. subst options. rewrite getattr_setattr.
    cbn [String.eqb Ascii.eqb Bool.eqb]. split; [reflexivity|]. split; [|split].
    + apply Forall_app. split; [exact Htyped|]. constructor; [exact Hx|constructor].
    + tauto.
    + split.
      * intros H. exfalso.
        apply (f_equal (@List.length value)) in H.
        rewrite length_app in H. cbn in H. lia.
      * intros [Hn Hi]. destruct Hx as [Hx|Hx]; congruence.
  - exists items. cbn [fst]. split; [exact Hitems|]. split; [exact Htyped|].
    assert (Hx : x <> VNone /\
                 isinstance x (TEntity ShipStationCustomsItem) = false).
    { apply require_type_spec. unfold require_type in E |- *.
      destruct x; try discriminate E;
        destruct (isinstance _ _); congruence. }
    split.
    + split.
      * intros H. exfalso.
        apply (f_equal (@List.length value)) in H.
        rewrite length_app in H. cbn in H. lia.
      * intros [H|H]; destruct Hx; congruence.
    + tauto.
Qed.

Lemma add_customs_item_keeps_types_witness :
  exists items',
    getattr (fst (add_customs_item VNone
                    (VObj ShipStationInternationalOptions []
                       [("customs_items", VList [])])))
            "customs_items" = Ok (VList items') /\
    items' = [VNone].
Proof.
  destruct (add_customs_item_keeps_types ShipStationInternationalOptions []
              [("customs_items", VList [])] [] VNone eq_refl (Forall_nil _))
    as (items' & Hget & _ & Happ & _).
  exists items'. split; [exact Hget|].
  apply Happ. left. reflexivity.
Defined.

(** X27: awaiting the asynchronous [get_carrier], [list_packages] or
    [list_services] issues exactly the request the synchronous operation
    issues, and where the synchronous operation returns the response the
    asynchronous one returns what the body parses to: a carrier, or the
    list of packages or services. *)
Theorem aio_carrier_operations
  (CONTENTS_VALUES NON_DELIVERY_OPTIONS : list string) (now : string)
  (json_loads : string -> outcome value)
  (http : request -> outcome value) (self : client)
  (carrier_code : value) (w : wire) :
  let parse := parse CONTENTS_VALUES NON_DELIVERY_OPTIONS now json_loads in
  let object_list :=
    object_list CONTENTS_VALUES NON_DELIVERY_OPTIONS now json_loads in
  Aio.get_carrier http CONTENTS_VALUES NON_DELIVERY_OPTIONS now json_loads
                  self carrier_code w
  = (fst (Api.get_carrier http self carrier_code w),
     r <- snd (Api.get_carrier http self carrier_code w) ;;
     body <- response_json r ;; parse ShipStationCarrier body)
  /\
  Aio.list_packages http CONTENTS_VALUES NON_DELIVERY_OPTIONS now json_loads
                    self carrier_code w
  = (fst (Api.list_packages http self carrier_code w),
     r <- snd (Api.list_packages http self carrier_code w) ;;
     body <- response_json r ;; object_list body ShipStationCarrierPackage)
  /\
  Aio.list_services http CONTENTS_VALUES NON_DELIVERY_OPTIONS now json_loads
                    self carrier_code w
  = (fst (Api.list_services http self carrier_code w),
     r <- snd (Api.list_services http self carrier_code w) ;;
     body <- response_json r ;; object_list body ShipStationCarrierService).
Proof.
  unfold Aio.get_carrier, Aio.list_packages, Aio.list_services, Aio.await,
    Aio.get, Api.get_carrier, Api.list_packages, Api.list_services, Api.get,
    io_bind, io_lift, send.
  cbn [fst snd].
  repeat split;
    match goal with
    | |- context [http ?req] => destruct (http req) as [r|e]; cbn [bind]
    end;
    try reflexivity;
    (destruct (debug self); cbn [andb bind]; [|reflexivity]);
    destruct (response_json r); reflexivity.
Qed.

(** X28: a wire name made of a lower-case word followed by capitalized
    words, each but the last of two letters at least, survives the way to
    its internal name and back, so that [as_dict] gives back the keys
    [from_json] was given. *)
Theorem to_camel_case_to_snake_case (first : string) (rest : list string) :
  segment first = true ->
  forallb segment rest = true ->
  followed_have_two rest = true ->
  let wire_name := first ++ Str.join0 (map Str.title rest) in
  to_snake_case wire_name = snake_name first rest /\
  to_camel_case (to_snake_case wire_name) = wire_name.
Proof.
  intros Hf Hr Hlong wire_name. subst wire_name.
  assert (H : to_snake_case (first ++ Str.join0 (map Str.title rest))
              = snake_name first rest).
  { unfold to_snake_case.
    rewrite (NamingFacts.snake_of_camel rest first Hf Hr Hlong).
    symmetry. apply NamingFacts.snake_name_underscored. }
  split; [exact H|]. rewrite H.
  apply NamingFacts.to_camel_case_snake; assumption.
Qed.

Lemma to_camel_case_to_snake_case_witness :
  to_snake_case "billToMyOtherAccount" = "bill_to_my_other_account" /\
  to_camel_case (to_snake_case "billToMyOtherAccount") = "billToMyOtherAccount".
Proof.
  exact (to_camel_case_to_snake_case "bill" ["to"; "my"; "other"; "account"]
           eq_refl eq_refl eq_refl).
Defined.
